(** * DeviceExtension: the "Add Device" viewer extension

    A shallow embedding of [src/client/DeviceExtension.js]: the
    [DeviceExtension] class (constructor, [load], [unload],
    [onToolbarCreated], [_createUI] and the toolbar button's click closure)
    and the [NewDevicePanel] class (constructor, [onViewerSelectionChanged],
    [onSubmitButtonClick]).

    The JavaScript runs inside a browser and the Autodesk viewer.  What the
    code reads from them (the selection, the loaded model, the toolbar, the
    document, the network) is a field of [World]; what it does to the user
    and to the outside ([alert], [console], [fetch]) is an [Effect] in the
    trace a method returns; a JavaScript exception is a [JsError]. *)

From stdpp Require Import base option list strings gmap fin_maps.
From Stdlib Require Import ZArith Lia.

Local Open Scope Z_scope.
Local Open Scope string_scope.
Local Open Scope list_scope.

(** ** The THREE library

    [THREE.Box3] and the numbers in it (IEEE doubles) belong to the viewer's
    bundled THREE.js.  The extension uses exactly three operations of it. *)

Record Vector3 (num : Type) := mkVector3 { x : num; y : num; z : num }.
Arguments mkVector3 {num} _ _ _.
Arguments x {num} _.
Arguments y {num} _.
Arguments z {num} _.

Class ThreeLib := {
  (** a JavaScript number *)
  num : Type;
  Box3 : Type;
  (** [new THREE.Box3()] *)
  Box3_new : Box3;
  (** [a.union(b)]: the value of [a] after the call *)
  Box3_union : Box3 -> Box3 -> Box3;
  (** [box.center()] *)
  Box3_center : Box3 -> Vector3 num;
}.

(** ** Values, errors and effects *)

(** What a [throw] or a rejected promise carries. *)
Inductive JsError :=
| TypeError (what : string)      (* a property read or a call on null/undefined *)
| Error (message : string)       (* [new Error(message)] *)
| HostError (what : string).     (* thrown or rejected by the viewer or the browser *)

(** The closures the code registers as listeners. *)
Inductive Handler :=
| TogglePanel                    (* the arrow function of lines 40-45 *)
| OnViewerSelectionChanged       (* [this.onViewerSelectionChanged.bind(this)] *)
| OnSubmitButtonClick            (* [this.onSubmitButtonClick.bind(this)] *)
| ForeignHandler (n : nat).      (* a listener of some other script *)

(** Toolbar controls live in a store and are referred to by their address:
    [this._group] and the entry of the toolbar are the same object. *)
Definition loc := nat.

Inductive Control :=
| ControlGroup (id : string) (controls : list loc)
| Button (id : string) (tooltip : option string) (onClick : option Handler).

Definition getId (c : Control) : string :=
  match c with
  | ControlGroup id _ => id
  | Button id _ _ => id
  end.

(** A DOM element reachable by [document.getElementById]. *)
Record Element := mkElement {
  attributes : gmap string string;
  value : string;
  clickListeners : list Handler;
}.

Record NewDevicePanel := mkPanel {
  panel_id : string;
  panel_title : string;
  visible : bool;
}.

Section Extension.
Context `{Three : ThreeLib}.

(** The argument of [JSON.stringify]. *)
#[warnings="-register-all"]
Inductive Json :=
| JString (s : string)
| JNumber (n : num)
| JObject (fields : list (string * Json)).

(** A call of [fetch(url, {method, headers, body})]; [url] is [None] when
    the value passed is [undefined]. *)
Record Request := mkRequest {
  url : option string;
  method : string;
  headers : list (string * string);
  body : Json;
}.

(** How a [fetch] ends: the promise rejects, or resolves to a response with
    its [ok] flag and the outcome of [resp.text()]. *)
Inductive FetchResult :=
| NetworkFailure (reason : JsError)
| Response (ok : bool) (text : JsError + string).

Inductive Effect :=
| Alert (message : string)
| ConsoleLog (message : string)
| ConsoleError (err : JsError)
| Fetch (req : Request).

(** ** The viewer's model *)

(** [tree.enumNodeFragments(node, callback, recursive)] calls [callback] on
    the listed fragment ids, in order, and may throw afterwards.  [node] is
    [None] for [undefined]. *)
Record InstanceTree := mkInstanceTree {
  enumNodeFragments : option Z -> bool -> list Z * option JsError;
}.

(** [frags.getWorldBounds(fragId, dst)] overwrites [dst]. *)
Record FragmentList := mkFragmentList {
  getWorldBounds : Z -> Box3;
}.

Record Model := mkModel {
  getInstanceTree : option InstanceTree;
  getFragmentList : option FragmentList;
}.

(** ** The world a method runs in *)

Record World := mkWorld {
  (* this.viewer *)
  selection : list Z;
  model : option Model;
  toolbar : option (list loc);
  store : list Control;
  selectionListeners : list Handler;
  (* the browser *)
  document : gmap string Element;
  network : Request -> FetchResult;
  (* the DeviceExtension instance *)
  options : gmap string string;
  _panel : option NewDevicePanel;
  _group : option loc;
  _button : option loc;
}.

Definition with_selection (s : list Z) (w : World) : World :=
  mkWorld s (model w) (toolbar w) (store w) (selectionListeners w)
          (document w) (network w) (options w) (_panel w) (_group w) (_button w).

Definition with_toolbar (t : option (list loc)) (w : World) : World :=
  mkWorld (selection w) (model w) t (store w) (selectionListeners w)
          (document w) (network w) (options w) (_panel w) (_group w) (_button w).

Definition with_store (h : list Control) (w : World) : World :=
  mkWorld (selection w) (model w) (toolbar w) h (selectionListeners w)
          (document w) (network w) (options w) (_panel w) (_group w) (_button w).

Definition with_selectionListeners (l : list Handler) (w : World) : World :=
  mkWorld (selection w) (model w) (toolbar w) (store w) l
          (document w) (network w) (options w) (_panel w) (_group w) (_button w).

Definition with_document (d : gmap string Element) (w : World) : World :=
  mkWorld (selection w) (model w) (toolbar w) (store w) (selectionListeners w)
          d (network w) (options w) (_panel w) (_group w) (_button w).

Definition with_options (o : gmap string string) (w : World) : World :=
  mkWorld (selection w) (model w) (toolbar w) (store w) (selectionListeners w)
          (document w) (network w) o (_panel w) (_group w) (_button w).

Definition with_panel (p : option NewDevicePanel) (w : World) : World :=
  mkWorld (selection w) (model w) (toolbar w) (store w) (selectionListeners w)
          (document w) (network w) (options w) p (_group w) (_button w).

Definition with_group (g : option loc) (w : World) : World :=
  mkWorld (selection w) (model w) (toolbar w) (store w) (selectionListeners w)
          (document w) (network w) (options w) (_panel w) g (_button w).

Definition with_button (b : option loc) (w : World) : World :=
  mkWorld (selection w) (model w) (toolbar w) (store w) (selectionListeners w)
          (document w) (network w) (options w) (_panel w) (_group w) b.

(** ** The monad of methods

    A method maps the world to a result (a value or a thrown error), the
    world it leaves, and the effects it emitted, oldest first.  What was
    done before a [throw] stays done. *)

Definition M (A : Type) : Type := World -> (JsError + A) * World * list Effect.

Definition ret {A} (a : A) : M A := fun w => (inr a, w, []).

Definition bind {A B} (m : M A) (k : A -> M B) : M B :=
  fun w =>
    match m w with
    | (inl e, w1, t1) => (inl e, w1, t1)
    | (inr a, w1, t1) =>
        match k a w1 with
        | (r, w2, t2) => (r, w2, t1 ++ t2)
        end
    end.

Definition throw {A} (e : JsError) : M A := fun w => (inl e, w, []).

(** [try { m } catch (err) { h err }] *)
Definition try_catch {A} (m : M A) (h : JsError -> M A) : M A :=
  fun w =>
    match m w with
    | (inl e, w1, t1) =>
        match h e w1 with
        | (r, w2, t2) => (r, w2, t1 ++ t2)
        end
    | (inr a, w1, t1) => (inr a, w1, t1)
    end.

Definition gets {A} (f : World -> A) : M A := fun w => (inr (f w), w, []).
Definition modify (f : World -> World) : M unit := fun w => (inr tt, f w, []).
Definition emit (e : Effect) : M unit := fun w => (inr tt, w, [e]).

Notation "x <- m ;; k" := (bind m (fun x => k))
  (at level 100, m at next level, k at level 200, right associativity).
Notation "m ;;; k" := (bind m (fun _ => k))
  (at level 100, k at level 200, right associativity).

(** ** Host primitives *)

(** [alert(message)] *)
Definition alert (message : string) : M unit := emit (Alert message).

(** [console.log(message)] and [console.error(err)] *)
Definition console_log (message : string) : M unit := emit (ConsoleLog message).
Definition console_error (err : JsError) : M unit := emit (ConsoleError err).

(** [this.viewer.getSelection()] *)
Definition getSelection : M (list Z) := gets selection.

(** A member access on the result of [document.getElementById(id)]; it
    throws a [TypeError] when the document has no such element. *)
Definition getElementById (id : string) : M Element :=
  d <- gets document ;;
  match d !! id with
  | Some e => ret e
  | None => throw (TypeError ("document.getElementById(" +:+ id +:+ ") is null"))
  end.

Definition putElement (id : string) (e : Element) : M unit :=
  modify (fun w => with_document (<[id := e]> (document w)) w).

(** [document.getElementById(id).removeAttribute(name)] *)
Definition removeAttribute (id name : string) : M unit :=
  e <- getElementById id ;;
  putElement id (mkElement (delete name (attributes e)) (value e) (clickListeners e)).

(** [document.getElementById(id).setAttribute(name, v)] *)
Definition setAttribute (id name v : string) : M unit :=
  e <- getElementById id ;;
  putElement id (mkElement (<[name := v]> (attributes e)) (value e) (clickListeners e)).

(** [document.getElementById(id).addEventListener('click', h)] *)
Definition addClickListener (id : string) (h : Handler) : M unit :=
  e <- getElementById id ;;
  putElement id (mkElement (attributes e) (value e) (clickListeners e ++ [h])).

(** [document.getElementById(id).value] *)
Definition getValue (id : string) : M string :=
  e <- getElementById id ;; ret (value e).

(** [await fetch(url, init)]: the request goes out, then the promise
    settles as the network decides. *)
Definition fetch (req : Request) : M (bool * (JsError + string)) :=
  emit (Fetch req) ;;;
  net <- gets network ;;
  match net req with
  | NetworkFailure reason => throw reason
  | Response ok text => ret (ok, text)
  end.

(** [await resp.text()] *)
Definition resp_text (text : JsError + string) : M string :=
  match text with
  | inl e => throw e
  | inr s => ret s
  end.

(** ** NewDevicePanel *)

(** The two states of the submit control: a button is inert exactly when
    it carries a [disabled] attribute. *)
Inductive ControlState := Enabled | Disabled.

Definition control_state (e : Element) : ControlState :=
  match attributes e !! "disabled" with
  | Some _ => Disabled
  | None => Enabled
  end.

Definition submit_state (w : World) : option ControlState :=
  match document w !! "submitBtn" with
  | Some e => Some (control_state e)
  | None => None
  end.

(** Lines 87-94. *)
Definition onViewerSelectionChanged : M unit :=
  dbids <- getSelection ;;
  if Nat.eqb (length dbids) 1 then
    removeAttribute "submitBtn" "disabled"
  else
    setAttribute "submitBtn" "disabled" "true".

(** [this.viewer.model], dereferenced. *)
Definition viewer_model : M Model :=
  m <- gets model ;;
  match m with
  | Some m => ret m
  | None => throw (TypeError "this.viewer.model is null")
  end.

(** The arrow function of lines 105-108.  It closes over [frags] and over
    the two boxes [totalBounds] and [fragBounds], which it mutates; the
    pair is (totalBounds, fragBounds). *)
Definition enumCallback (frags : option FragmentList) (boxes : Box3 * Box3)
    (fragId : Z) : M (Box3 * Box3) :=
  match frags with
  | None => throw (TypeError "frags is null")
  | Some fl =>
      let fragBounds := getWorldBounds fl fragId in
      let totalBounds := Box3_union (fst boxes) fragBounds in
      ret (totalBounds, fragBounds)
  end.

Fixpoint forEach {S A} (f : S -> A -> M S) (l : list A) (s : S) : M S :=
  match l with
  | [] => ret s
  | a :: l' => s' <- f s a ;; forEach f l' s'
  end.

(** [tree.enumNodeFragments(node, callback, recursive)] *)
Definition call_enumNodeFragments (tree : option InstanceTree) (node : option Z)
    (callback : Box3 * Box3 -> Z -> M (Box3 * Box3)) (recursive : bool)
    (boxes : Box3 * Box3) : M (Box3 * Box3) :=
  match tree with
  | None => throw (TypeError "tree is null")
  | Some t =>
      match enumNodeFragments t node recursive with
      | (fragIds, thrown) =>
          boxes' <- forEach callback fragIds boxes ;;
          match thrown with
          | Some e => throw e
          | None => ret boxes'
          end
      end
  end.

Definition success_message : string := "New device has been successfully added.".
Definition failure_message : string :=
  "Could not add new device. See console for more details.".

(** The object literal of lines 112-117. *)
Definition device (deviceModelId deviceId deviceName : string)
    (center : Vector3 num) : Json :=
  JObject [("deviceModelId", JString deviceModelId);
           ("deviceId", JString deviceId);
           ("deviceName", JString deviceName);
           ("positon", JObject [("x", JNumber (x center));
                                ("y", JNumber (y center));
                                ("z", JNumber (z center))])].

(** Lines 99-109: "compute the center point of what's selected". *)
Definition selection_center : M (Vector3 num) :=
  dbids <- getSelection ;;
  tree <- (m <- viewer_model ;; ret (getInstanceTree m)) ;;
  frags <- (m <- viewer_model ;; ret (getFragmentList m)) ;;
  let totalBounds := Box3_new in
  let fragBounds := Box3_new in
  boxes <- call_enumNodeFragments tree (dbids !! 0%nat) (enumCallback frags) true
             (totalBounds, fragBounds) ;;
  ret (Box3_center (fst boxes)).

(** Lines 111-129: "create a new device and submit it to the configured
    endpoint".  The panel's [this.options] is the object the extension
    passed to the constructor (line 42), which the [DockingPanel] base class
    keeps: the [options] of the world. *)
Definition submit_device (center : Vector3 num) : M unit :=
  deviceModelId <- getValue "deviceModelId" ;;
  deviceId <- getValue "deviceId" ;;
  deviceName <- getValue "deviceName" ;;
  let dev := device deviceModelId deviceId deviceName center in
  u <- gets (fun w => options w !! "url") ;;
  resp <- fetch (mkRequest u "post" [("Content-Type", "application/json")] dev) ;;
  if negb (fst resp) then
    text <- resp_text (snd resp) ;;
    throw (Error text)
  else
    alert success_message.

(** The body of the [try] block, lines 99-129. *)
Definition submit_body : M unit :=
  center <- selection_center ;;
  submit_device center.

(** Lines 97-134. *)
Definition onSubmitButtonClick : M unit :=
  try_catch submit_body
    (fun err => alert failure_message ;;; console_error err).

(** The markup assigned to [scrollContainer.innerHTML], lines 66-80: the
    elements that carry an id, with their attributes and initial value. *)
Definition form_select : Element :=
  mkElement {[ "name" := "deviceModelId"; "id" := "deviceModelId" ]} "dm1" [].
Definition form_deviceId : Element :=
  mkElement {[ "type" := "text"; "id" := "deviceId" ]} "" [].
Definition form_deviceName : Element :=
  mkElement {[ "type" := "text"; "id" := "deviceName" ]} "" [].
Definition form_submitBtn : Element :=
  mkElement {[ "id" := "submitBtn"; "style" := "margin-top: 1em;" ]} "" [].

Definition form_elements : gmap string Element :=
  <["deviceModelId" := form_select]>
    (<["deviceId" := form_deviceId]>
      (<["deviceName" := form_deviceName]>
        (<["submitBtn" := form_submitBtn]> ∅))).

(** The assignment adds the new nodes below the panel's scroll container.
    [document] holds, for each id, the element [getElementById] returns,
    the first with that id in tree order: an element of the page that
    already carries one of the ids stays the one found, with its value,
    attributes and listeners; for an id not yet in the document the new
    node is found. *)
Definition set_innerHTML : M unit :=
  modify (fun w => with_document (document w ∪ form_elements) w).

(** [this.viewer.addEventListener(SELECTION_CHANGED_EVENT, h)] *)
Definition addSelectionListener (h : Handler) : M unit :=
  modify (fun w => with_selectionListeners (selectionListeners w ++ [h]) w).

(** Lines 55-84.  The [DockingPanel] base constructor builds a hidden
    panel; the container styles, the scroll container and the footer are
    widgets of the viewer and carry no state the class reads back. *)
Definition NewDevicePanel_new (id title : string) : M NewDevicePanel :=
  set_innerHTML ;;;
  onViewerSelectionChanged ;;;
  addSelectionListener OnViewerSelectionChanged ;;;
  addClickListener "submitBtn" OnSubmitButtonClick ;;;
  ret (mkPanel id title false).

(** ** DeviceExtension *)

Definition default_url : string := "/api/devices?provider=synthetic&project=unused".

(** Lines 11-15.  [super(viewer, options)] stores [options], or a fresh
    empty object when none is given, in [this.options]. *)
Definition DeviceExtension_new (opts : option (gmap string string)) : M unit :=
  modify (with_group None) ;;;
  modify (with_button None) ;;;
  modify (with_options (default ∅ opts)) ;;;
  modify (fun w => with_options (<["url" := default_url]> (options w)) w) ;;;
  modify (with_panel None).

(** Lines 17-20. *)
Definition load : M bool :=
  console_log "DeviceExtension loaded." ;;;
  ret true.

(** Lines 22-25. *)
Definition unload : M bool :=
  console_log "DeviceExtension unloaded." ;;;
  ret true.

(** [control.getId() === id] for the control at address [l]. *)
Definition has_id (h : list Control) (id : string) (l : loc) : bool :=
  match h !! l with
  | Some c => bool_decide (getId c = id)
  | None => false
  end.

(** [group.getControl(id)]: the first control of the group with that id,
    or null. *)
Definition getControl (h : list Control) (controls : list loc) (id : string)
    : option loc :=
  List.find (has_id h id) controls.

(** [this.viewer.toolbar], dereferenced. *)
Definition viewer_toolbar : M (list loc) :=
  t <- gets toolbar ;;
  match t with
  | Some t => ret t
  | None => throw (TypeError "this.viewer.toolbar is null")
  end.

Definition toolbar_getControl (id : string) : M (option loc) :=
  t <- viewer_toolbar ;;
  h <- gets store ;;
  ret (getControl h t id).

Definition toolbar_addControl (l : loc) : M unit :=
  t <- viewer_toolbar ;;
  modify (with_toolbar (Some (t ++ [l]))).

(** [new Autodesk.Viewing.UI.ControlGroup(id)] and [new ...Button(id)] *)
Definition new_control (c : Control) : M loc :=
  l <- gets (fun w => length (store w)) ;;
  modify (fun w => with_store (store w ++ [c]) w) ;;;
  ret l.

Definition this_group : M loc :=
  g <- gets _group ;;
  match g with
  | Some g => ret g
  | None => throw (TypeError "this._group is undefined")
  end.

Definition this_button : M loc :=
  b <- gets _button ;;
  match b with
  | Some b => ret b
  | None => throw (TypeError "this._button is undefined")
  end.

(** [group.addControl(control)] *)
Definition group_addControl (g l : loc) : M unit :=
  h <- gets store ;;
  match h !! g with
  | Some (ControlGroup id cs) =>
      modify (with_store (<[g := ControlGroup id (cs ++ [l])]> h))
  | _ => throw (TypeError "addControl is not a function")
  end.

(** [button.setToolTip(text)] *)
Definition setToolTip (b : loc) (text : string) : M unit :=
  h <- gets store ;;
  match h !! b with
  | Some (Button id _ click) =>
      modify (with_store (<[b := Button id (Some text) click]> h))
  | _ => throw (TypeError "setToolTip is not a function")
  end.

(** [button.onClick = handler] *)
Definition set_onClick (b : loc) (handler : Handler) : M unit :=
  h <- gets store ;;
  match h !! b with
  | Some (Button id tip _) =>
      modify (with_store (<[b := Button id tip (Some handler)]> h))
  | _ => throw (TypeError "cannot set onClick")
  end.

(** Lines 31-47. *)
Definition _createUI : M unit :=
  g <- toolbar_getControl "device-extension-group" ;;
  modify (with_group g) ;;;
  g <- gets _group ;;
  match g with
  | Some _ => ret tt
  | None =>
      g <- new_control (ControlGroup "device-extension-group" []) ;;
      modify (with_group (Some g)) ;;;
      (g <- this_group ;; toolbar_addControl g) ;;;
      b <- new_control (Button "add-device-button" None None) ;;
      modify (with_button (Some b)) ;;;
      (g <- this_group ;; b <- this_button ;; group_addControl g b) ;;;
      (b <- this_button ;; setToolTip b "Add Device") ;;;
      (b <- this_button ;; set_onClick b TogglePanel)
  end.

(** Lines 27-29. *)
Definition onToolbarCreated : M unit := _createUI.

(** [panel.setVisible(show)] on [this._panel] *)
Definition setVisible (show : bool) (p : NewDevicePanel) : NewDevicePanel :=
  mkPanel (panel_id p) (panel_title p) show.

(** The click closure of the toolbar button, lines 40-45. *)
Definition button_onClick : M unit :=
  p <- gets _panel ;;
  match p with
  | Some _ => ret tt
  | None =>
      p <- NewDevicePanel_new "new-device-panel" "Add Device" ;;
      modify (with_panel (Some p))
  end ;;;
  p <- gets _panel ;;
  match p with
  | Some p => modify (with_panel (Some (setVisible (negb (visible p)) p)))
  | None => throw (TypeError "this._panel is null")
  end.

(** Running a registered listener. *)
Definition run_handler (h : Handler) : M unit :=
  match h with
  | TogglePanel => button_onClick
  | OnViewerSelectionChanged => onViewerSelectionChanged
  | OnSubmitButtonClick => onSubmitButtonClick
  | ForeignHandler _ => ret tt
  end.

Fixpoint run_handlers (hs : list Handler) : M unit :=
  match hs with
  | [] => ret tt
  | h :: hs' => run_handler h ;;; run_handlers hs'
  end.

(** ** What the host and the user do *)

(** The viewer changes the selection and fires SELECTION_CHANGED_EVENT. *)
Definition fire_selection_changed (sel : list Z) : M unit :=
  modify (with_selection sel) ;;;
  hs <- gets selectionListeners ;;
  run_handlers hs.

(** A click on an element of the document; a disabled control ignores it. *)
Definition click_element (id : string) : M unit :=
  e <- getElementById id ;;
  match control_state e with
  | Disabled => ret tt
  | Enabled => run_handlers (clickListeners e)
  end.

(** A click on the extension's toolbar button. *)
Definition click_toolbar_button : M unit :=
  b <- this_button ;;
  h <- gets store ;;
  match h !! b with
  | Some (Button _ _ (Some handler)) => run_handler handler
  | _ => ret tt
  end.

(** The start of a session: the viewer loads the extension with [opts] and
    builds its toolbar, the user opens the panel and selects [sel] in the
    scene. *)
Definition open_panel_and_select (opts : option (gmap string string))
    (sel : list Z) : M unit :=
  DeviceExtension_new opts ;;;
  load ;;;
  onToolbarCreated ;;;
  click_toolbar_button ;;;
  fire_selection_changed sel.

(** A whole session: the same, and then the user clicks Submit. *)
Definition add_device_session (opts : option (gmap string string)) (sel : list Z)
    : M unit :=
  open_panel_and_select opts sel ;;;
  click_element "submitBtn".

(** [n] calls of a method in a row, stopping at the first throw. *)
Fixpoint times (n : nat) (m : M unit) : M unit :=
  match n with
  | O => ret tt
  | S n' => m ;;; times n' m
  end.

(** Projections of a method's outcome. *)
Definition result_of {A} (r : (JsError + A) * World * list Effect) : JsError + A :=
  fst (fst r).
Definition world_of {A} (r : (JsError + A) * World * list Effect) : World :=
  snd (fst r).
Definition trace_of {A} (r : (JsError + A) * World * list Effect) : list Effect :=
  snd r.

(** The notifications shown to the user, and the requests sent. *)
Definition alerts (t : list Effect) : list string :=
  omap (fun e => match e with Alert m => Some m | _ => None end) t.
Definition requests (t : list Effect) : list Request :=
  omap (fun e => match e with Fetch r => Some r | _ => None end) t.

(** ** Vocabulary of the properties *)

(** The boxes the callback reads for the enumerated fragments. *)
Definition fragment_boxes (frags : option FragmentList) (ids : list Z) : list Box3 :=
  match frags with
  | Some fl => map (getWorldBounds fl) ids
  | None => []
  end.

(** The request the handler builds from three field values and a centre. *)
Definition device_request (w : World) (v1 v2 v3 : string) (c : Vector3 num) : Request :=
  mkRequest (options w !! "url") "post" [("Content-Type", "application/json")]
            (device v1 v2 v3 c).

Definition form_value (w : World) (id : string) : option string :=
  value <$> document w !! id.

(** Every way the handler can run. *)
Inductive SubmitRun (w : World) : Prop :=
| CenterThrows e
    (Hcenter : selection_center w = (inl e, w, []))
    (Hbody : result_of (submit_body w) = inl e)
    (Hrun : onSubmitButtonClick w =
              (inr tt, w, [Alert failure_message; ConsoleError e]))
| FormThrows c e
    (Hcenter : selection_center w = (inr c, w, []))
    (Hbody : result_of (submit_body w) = inl e)
    (Hrun : onSubmitButtonClick w =
              (inr tt, w, [Alert failure_message; ConsoleError e]))
| RequestFails c v1 v2 v3 e
    (Hcenter : selection_center w = (inr c, w, []))
    (Hv1 : form_value w "deviceModelId" = Some v1)
    (Hv2 : form_value w "deviceId" = Some v2)
    (Hv3 : form_value w "deviceName" = Some v3)
    (Hnet : forall text, network w (device_request w v1 v2 v3 c) <> Response true text)
    (Hbody : result_of (submit_body w) = inl e)
    (Hrun : onSubmitButtonClick w =
              (inr tt, w, [Fetch (device_request w v1 v2 v3 c);
                           Alert failure_message; ConsoleError e]))
| RequestSucceeds c v1 v2 v3 text
    (Hcenter : selection_center w = (inr c, w, []))
    (Hv1 : form_value w "deviceModelId" = Some v1)
    (Hv2 : form_value w "deviceId" = Some v2)
    (Hv3 : form_value w "deviceName" = Some v3)
    (Hnet : network w (device_request w v1 v2 v3 c) = Response true text)
    (Hbody : result_of (submit_body w) = inr tt)
    (Hrun : onSubmitButtonClick w =
              (inr tt, w, [Fetch (device_request w v1 v2 v3 c);
                           Alert success_message])).

(** Reading a property of a JSON object, and the [positon] of a payload. *)
Definition json_get (k : string) (j : Json) : option Json :=
  match j with
  | JObject fields => snd <$> List.find (fun kv => String.eqb (fst kv) k) fields
  | _ => None
  end.

Definition payload_position (j : Json) : option (Vector3 num) :=
  match json_get "positon" j with
  | Some p =>
      match json_get "x" p, json_get "y" p, json_get "z" p with
      | Some (JNumber px), Some (JNumber py), Some (JNumber pz) =>
          Some (mkVector3 px py pz)
      | _, _, _ => None
      end
  | None => None
  end.

(** The claim C3 makes of every submit: exactly one request goes out, and
    it carries a device record. *)
Definition posts_one_device (w : World) : Prop :=
  exists v1 v2 v3 c,
    requests (trace_of (onSubmitButtonClick w)) = [device_request w v1 v2 v3 c].

(** The url the claim C6 expects a request to go to: the one supplied in the
    options at construction, the default when none is supplied. *)
Definition configured_url (opts : option (gmap string string)) : string :=
  match opts with
  | Some o => default default_url (o !! "url")
  | None => default_url
  end.

(** The controls of the toolbar that carry a given id. *)
Definition toolbar_controls_named (w : World) (id : string) : list loc :=
  match toolbar w with
  | Some tb => List.filter (has_id (store w) id) tb
  | None => []
  end.

(** What the selection-change observer maintains once the panel is built:
    it is the one selection listener, and the submit control is Enabled
    exactly when one object is selected. *)
Definition observer_invariant (w : World) : Prop :=
  selectionListeners w = [OnViewerSelectionChanged] /\
  submit_state w =
    Some (if Nat.eqb (length (selection w)) 1 then Enabled else Disabled).

(** The claim C6 makes of a session: its requests go to the configured
    url. *)
Definition posts_to_configured_url (opts : option (gmap string string))
    (sel : list Z) (w : World) : Prop :=
  forall q, In (Fetch q) (trace_of (add_device_session opts sel w)) ->
            url q = Some (configured_url opts).

(** The claim C8 makes of the panel's construction: the submit control
    ends up Disabled. *)
Definition panel_starts_disabled (w : World) : Prop :=
  submit_state (world_of (NewDevicePanel_new "new-device-panel" "Add Device" w)) =
    Some Disabled.

(** A listener that belongs to some other script. *)
Definition is_foreign (h : Handler) : Prop :=
  match h with
  | ForeignHandler _ => True
  | _ => False
  end.

(** The click listeners of the element found as [submitBtn], none when
    there is no such element. *)
Definition submit_listeners (w : World) : list Handler :=
  match document w !! "submitBtn" with
  | Some e => clickListeners e
  | None => []
  end.

(** Selection events fired one after the other. *)
Fixpoint fire_selections (sels : list (list Z)) : M unit :=
  match sels with
  | [] => ret tt
  | sel :: rest => fire_selection_changed sel ;;; fire_selections rest
  end.

(** The user opens the panel, then the selection changes a number of
    times. *)
Definition open_then_select (sels : list (list Z)) : M unit :=
  button_onClick ;;;
  fire_selections sels.

(** The toolbar is built and the user clicks the new button. *)
Definition create_and_click : M unit :=
  _createUI ;;;
  click_toolbar_button.

Definition with_network (n : Request -> FetchResult) (w : World) : World :=
  mkWorld (selection w) (model w) (toolbar w) (store w) (selectionListeners w)
          (document w) n (options w) (_panel w) (_group w) (_button w).

Definition with_model (m : option Model) (w : World) : World :=
  mkWorld (selection w) m (toolbar w) (store w) (selectionListeners w)
          (document w) (network w) (options w) (_panel w) (_group w) (_button w).

End Extension.

(** * A test double for THREE

    Boxes over integer coordinates, enough to run the methods on concrete
    worlds: the empty box is [None]; its centre is taken to be the origin. *)
Module Mock.

Definition vmin (a b : Vector3 Z) : Vector3 Z :=
  mkVector3 (Z.min (x a) (x b)) (Z.min (y a) (y b)) (Z.min (z a) (z b)).
Definition vmax (a b : Vector3 Z) : Vector3 Z :=
  mkVector3 (Z.max (x a) (x b)) (Z.max (y a) (y b)) (Z.max (z a) (z b)).

Definition ZBox := option (Vector3 Z * Vector3 Z).

Definition zunion (a b : ZBox) : ZBox :=
  match a, b with
  | None, _ => b
  | _, None => a
  | Some (lo, hi), Some (lo', hi') => Some (vmin lo lo', vmax hi hi')
  end.

Definition zcenter (a : ZBox) : Vector3 Z :=
  match a with
  | None => mkVector3 0 0 0
  | Some (lo, hi) =>
      mkVector3 ((x lo + x hi) / 2) ((y lo + y hi) / 2) ((z lo + z hi) / 2)
  end.

Definition three : ThreeLib :=
  {| num := Z; Box3 := ZBox; Box3_new := None;
     Box3_union := zunion; Box3_center := zcenter |}.
#[local] Existing Instance three.

(** One object, dbId 7, made of the fragments 1 and 2. *)
Definition tree : InstanceTree :=
  mkInstanceTree (fun node _ =>
    match node with
    | Some 7 => ([1; 2], None)
    | Some _ => ([], None)
    | None => ([], None)
    end).

Definition frags : FragmentList :=
  mkFragmentList (fun fragId =>
    if Z.eqb fragId 1 then Some (mkVector3 0 0 0, mkVector3 2 2 2)
    else Some (mkVector3 2 0 (-4), mkVector3 6 4 0)).

Definition server_ok : Request -> FetchResult := fun _ => Response true (inr "").

Definition form : gmap string Element :=
  <["deviceModelId" := mkElement ∅ "dm2" []]>
    (<["deviceId" := mkElement ∅ "d-17" []]>
      (<["deviceName" := mkElement ∅ "pump" []]>
        (<["submitBtn" := mkElement ∅ "" []]> ∅))).

(** A page with the viewer started: a model is loaded, the toolbar holds
    the viewer's own group with one button, nothing is selected, and the
    extension is not constructed yet. *)
Definition page : World :=
  mkWorld [] (Some (mkModel (Some tree) (Some frags)))
          (Some [0%nat])
          [ControlGroup "navTools" [1%nat];
           Button "toolbar-home" (Some "Home") (Some (ForeignHandler 0))]
          [] ∅ server_ok ∅ None None None.

(** The same page with the panel's form filled in. *)
Definition page_with_form : World := with_document form page.

(** Object 7 is selected and the form is filled in, but the model's
    instance tree is not available: [getInstanceTree()] returns null. *)
Definition page_without_tree : World :=
  mkWorld [7] (Some (mkModel None (Some frags))) (Some [0%nat]) (store page) []
          form server_ok ∅ None None None.

(** Options that carry a url of their own. *)
Definition custom_options : option (gmap string string) :=
  Some {[ "url" := "/custom" ]}.

(** The centre of object 7 and the request that carries it. *)
Definition center7 : Vector3 Z := mkVector3 3 2 (-1).
Definition request7 : Request :=
  device_request page_with_form "dm2" "d-17" "pump" center7.

(** The page before the viewer has built its toolbar. *)
Definition page_without_toolbar : World := with_toolbar None page.

(** The page after [_createUI] has run once. *)
Definition page_with_button : World := world_of (_createUI page).

(** The page after a first click on the toolbar button. *)
Definition page_opened : World := world_of (button_onClick page).

(** Object 7 is selected and the form is filled in, but the model has no
    fragment list. *)
Definition page_without_frags : World :=
  with_model (Some (mkModel (Some tree) None)) (with_selection [7] page_with_form).

(** A server that answers 409 with a text body. *)
Definition server_rejects : Request -> FetchResult :=
  fun _ => Response false (inr "device exists").

End Mock.

Section Properties.
Context `{Three : ThreeLib}.

(** * Properties *)

Ltac unfold_m :=
  unfold onViewerSelectionChanged, removeAttribute, setAttribute, addClickListener,
    getValue, getElementById, putElement, getSelection, alert, console_log,
    console_error, addSelectionListener, set_innerHTML, viewer_model,
    viewer_toolbar, bind, ret, throw, gets, modify, emit, try_catch in *.

(** A step that returns without effects hands its value and world on. *)
Lemma bind_ok {A B} (m : M A) (k : A -> M B) (w w1 : World) (a : A) :
  m w = (inr a, w1, []) -> bind m k w = k a w1.
Proof.
  intros H. unfold bind. rewrite H. by destruct (k a w1) as [[r w2] t2].
Qed.

(** ** The selection-change handler *)

Lemma onViewerSelectionChanged_run (w : World) (btn : Element) :
  document w !! "submitBtn" = Some btn ->
  onViewerSelectionChanged w =
    (inr tt,
     with_document
       (<["submitBtn" :=
           if Nat.eqb (length (selection w)) 1
           then mkElement (delete "disabled" (attributes btn)) (value btn)
                          (clickListeners btn)
           else mkElement (<["disabled" := "true"]> (attributes btn)) (value btn)
                          (clickListeners btn)]> (document w)) w,
     []).
Proof.
  intros Hbtn. unfold_m.
  destruct (Nat.eqb (length (selection w)) 1); simpl; rewrite Hbtn; reflexivity.
Qed.

Lemma control_state_removed (e : Element) :
  control_state (mkElement (delete "disabled" (attributes e)) (value e)
                           (clickListeners e)) = Enabled.
Proof. unfold control_state; simpl. by rewrite lookup_delete_eq. Qed.

Lemma control_state_set (e : Element) (v : string) :
  control_state (mkElement (<["disabled" := v]> (attributes e)) (value e)
                           (clickListeners e)) = Disabled.
Proof. unfold control_state; simpl. by rewrite lookup_insert_eq. Qed.

(** C1. Whenever the selection-change handler runs on a document that holds
    the submit button, it returns normally and leaves the button Enabled if
    and only if the current selection has exactly one element, and Disabled
    if and only if it has any other number of elements; the selection itself
    is not touched. *)
Theorem selection_changed_sets_submit_state (w : World) :
  is_Some (document w !! "submitBtn") ->
  exists w',
    onViewerSelectionChanged w = (inr tt, w', []) /\
    selection w' = selection w /\
    (submit_state w' = Some Enabled <-> length (selection w) = 1%nat) /\
    (submit_state w' = Some Disabled <-> length (selection w) <> 1%nat).
Proof.
  intros [btn Hbtn].
  eexists. split; [apply (onViewerSelectionChanged_run w btn Hbtn)|].
  split; [reflexivity|].
  unfold submit_state; simpl. rewrite lookup_insert_eq.
  destruct (Nat.eqb_spec (length (selection w)) 1) as [Heq|Hne].
  - rewrite control_state_removed. split; split; intros; congruence.
  - rewrite control_state_set. split; split; intros; congruence.
Qed.

(** ** load and unload *)

(** C9. [load] and [unload] each return [true]; the world they leave is the
    world they were given, every field of it, and their only effect is one
    console message. *)
Theorem load_unload_only_log (w : World) :
  load w = (inr true, w, [ConsoleLog "DeviceExtension loaded."]) /\
  unload w = (inr true, w, [ConsoleLog "DeviceExtension unloaded."]).
Proof. split; reflexivity. Qed.

(** ** Panel construction *)

Lemma form_elements_lookup (d : gmap string Element) (i : string) :
  (d ∪ form_elements) !! i =
    match d !! i with
    | Some e => Some e
    | None => form_elements !! i
    end.
Proof. rewrite lookup_union. by destruct (d !! i), (form_elements !! i). Qed.

(** The panel's constructor, step by step; [btn0] is the element that
    [getElementById('submitBtn')] finds once the markup is in place. *)
Lemma NewDevicePanel_new_spec (id title : string) (w : World) :
  exists w',
    NewDevicePanel_new id title w = (inr (mkPanel id title false), w', []) /\
    (selection w' = selection w /\ model w' = model w /\ toolbar w' = toolbar w /\
     store w' = store w /\ network w' = network w /\ options w' = options w /\
     _panel w' = _panel w /\ _group w' = _group w /\ _button w' = _button w) /\
    selectionListeners w' = selectionListeners w ++ [OnViewerSelectionChanged] /\
    document w' !! "submitBtn" =
      Some (let btn0 := default form_submitBtn (document w !! "submitBtn") in
            mkElement
              (if Nat.eqb (length (selection w)) 1
               then delete "disabled" (attributes btn0)
               else <["disabled" := "true"]> (attributes btn0))
              (value btn0) (clickListeners btn0 ++ [OnSubmitButtonClick])) /\
    (forall i, i <> "submitBtn" ->
               document w' !! i = (document w ∪ form_elements) !! i).
Proof.
  set (btn0 := default form_submitBtn (document w !! "submitBtn")).
  set (w1 := with_document (document w ∪ form_elements) w).
  assert (Hbtn : document w1 !! "submitBtn" = Some btn0).
  { unfold w1, btn0. simpl. rewrite form_elements_lookup.
    by destruct (document w !! "submitBtn"). }
  unfold NewDevicePanel_new.
  rewrite (bind_ok set_innerHTML _ w w1 tt eq_refl).
  rewrite (bind_ok _ _ _ _ _ (onViewerSelectionChanged_run w1 btn0 Hbtn)).
  unfold addSelectionListener, addClickListener. unfold_m. simpl.
  rewrite lookup_insert_eq. simpl.
  eexists. split; [reflexivity|]. simpl.
  split; [done|]. split; [done|]. split.
  - rewrite lookup_insert_eq. by destruct (Nat.eqb (length (selection w)) 1).
  - intros i Hi. by rewrite !lookup_insert_ne.
Qed.

Lemma NewDevicePanel_new_run (id title : string) (w : World) :
  exists w',
    NewDevicePanel_new id title w = (inr (mkPanel id title false), w', []) /\
    selection w' = selection w /\
    selectionListeners w' = selectionListeners w ++ [OnViewerSelectionChanged] /\
    submit_state w' =
      Some (if Nat.eqb (length (selection w)) 1 then Enabled else Disabled).
Proof.
  destruct (NewDevicePanel_new_spec id title w)
    as (w' & Hrun & (Hs & _) & Hl & Hb & _).
  exists w'. split; [done|]. split; [done|]. split; [done|].
  unfold submit_state. rewrite Hb. unfold control_state. simpl.
  destruct (Nat.eqb (length (selection w)) 1); simpl.
  - by rewrite lookup_delete_eq.
  - by rewrite lookup_insert_eq.
Qed.

(** C8, as the code has it. Constructing the panel returns normally and
    leaves the submit control in the state the selection-change handler
    gives it for the selection of that moment: Disabled if and only if the
    number of selected objects is not one, Enabled if and only if it is
    one. *)
Theorem panel_construction_follows_selection (id title : string) (w : World) :
  exists p w',
    NewDevicePanel_new id title w = (inr p, w', []) /\
    (submit_state w' = Some Disabled <-> length (selection w) <> 1%nat) /\
    (submit_state w' = Some Enabled <-> length (selection w) = 1%nat).
Proof.
  destruct (NewDevicePanel_new_run id title w) as (w' & Hrun & _ & _ & Hst).
  exists (mkPanel id title false), w'. split; [exact Hrun|].
  rewrite Hst.
  destruct (Nat.eqb_spec (length (selection w)) 1) as [Heq|Hne];
    split; split; intros; congruence.
Qed.

(** Building the panel on a viewer without selection listeners establishes
    the observer's invariant, and every selection event keeps it. *)
Lemma panel_establishes_invariant (id title : string) (w : World) :
  selectionListeners w = [] ->
  observer_invariant (world_of (NewDevicePanel_new id title w)).
Proof.
  intros Hl.
  destruct (NewDevicePanel_new_run id title w) as (w' & -> & Hsel & Hls & Hst).
  unfold world_of; simpl. split.
  - by rewrite Hls, Hl.
  - by rewrite Hst, Hsel.
Qed.

Lemma selection_event_keeps_invariant (sel : list Z) (w : World) :
  observer_invariant w ->
  result_of (fire_selection_changed sel w) = inr tt /\
  observer_invariant (world_of (fire_selection_changed sel w)).
Proof.
  intros [Hl Hst].
  assert (exists btn, document w !! "submitBtn" = Some btn) as [btn Hbtn].
  { unfold submit_state in Hst. destruct (document w !! "submitBtn"); [by eexists|done]. }
  unfold fire_selection_changed.
  rewrite (bind_ok (modify _) _ w (with_selection sel w) tt eq_refl).
  rewrite (bind_ok (gets _) _ _ (with_selection sel w) [OnViewerSelectionChanged]);
    [|unfold gets; simpl; by rewrite Hl].
  simpl run_handlers.
  rewrite (bind_ok _ _ _ _ _ (onViewerSelectionChanged_run (with_selection sel w) btn Hbtn)).
  unfold ret, result_of, world_of, observer_invariant, submit_state; simpl.
  split; [reflexivity|]. split; [exact Hl|].
  rewrite lookup_insert_eq.
  destruct (Nat.eqb (length sel) 1).
  - by rewrite control_state_removed.
  - by rewrite control_state_set.
Qed.

(** ** The submit handler *)

Lemma forEach_enumCallback (fl : FragmentList) (ids : list Z) (total fb : Box3) :
  exists fb', forall w : World,
    forEach (enumCallback (Some fl)) ids (total, fb) w =
      (inr (fold_left Box3_union (map (getWorldBounds fl) ids) total, fb'), w, []).
Proof.
  revert total fb. induction ids as [|i ids IH]; intros total fb; simpl.
  - eexists; reflexivity.
  - destruct (IH (Box3_union total (getWorldBounds fl i)) (getWorldBounds fl i))
      as [fb' H].
    exists fb'. intros w. unfold bind; simpl. by rewrite H.
Qed.

Lemma forEach_enumCallback_null (ids : list Z) (boxes : Box3 * Box3) (w : World) :
  ids <> [] ->
  forEach (enumCallback None) ids boxes w = (inl (TypeError "frags is null"), w, []).
Proof. destruct ids; [congruence|reflexivity]. Qed.

Lemma call_enumNodeFragments_pure tree node frags boxes (w : World) :
  exists r, call_enumNodeFragments tree node (enumCallback frags) true boxes w = (r, w, []).
Proof.
  unfold call_enumNodeFragments.
  destruct tree as [t|]; [|eexists; reflexivity].
  destruct (enumNodeFragments t node true) as [ids thrown].
  destruct frags as [fl|].
  - destruct boxes as [total fb].
    destruct (forEach_enumCallback fl ids total fb) as [fb' H].
    unfold bind. rewrite H. destruct thrown; eexists; reflexivity.
  - destruct ids as [|i ids].
    + unfold bind; simpl. destruct thrown; eexists; reflexivity.
    + unfold bind. rewrite forEach_enumCallback_null by done. eexists; reflexivity.
Qed.

(** Computing the centre reads the world and nothing else. *)
Lemma selection_center_pure (w : World) :
  exists r, selection_center w = (r, w, []).
Proof.
  unfold selection_center. unfold_m. cbn -[call_enumNodeFragments].
  destruct (model w) as [m|] eqn:Hm; cbn -[call_enumNodeFragments];
    [|eexists; reflexivity].
  rewrite Hm; cbn -[call_enumNodeFragments].
  destruct (call_enumNodeFragments_pure (getInstanceTree m) (selection w !! 0%nat)
              (getFragmentList m) (Box3_new, Box3_new) w) as [r ->].
  destruct r; eexists; reflexivity.
Qed.

(** What the centre is when the computation completes. *)
Lemma selection_center_inv (w : World) (c : Vector3 num) :
  result_of (selection_center w) = inr c ->
  exists m tree ids,
    model w = Some m /\ getInstanceTree m = Some tree /\
    enumNodeFragments tree (selection w !! 0%nat) true = (ids, None) /\
    c = Box3_center
          (fold_left Box3_union (fragment_boxes (getFragmentList m) ids) Box3_new).
Proof.
  unfold result_of, selection_center, call_enumNodeFragments. unfold_m. simpl.
  destruct (model w) as [m|] eqn:Hm; simpl; [|discriminate].
  rewrite Hm; simpl.
  destruct (getInstanceTree m) as [t|] eqn:Ht; simpl; [|discriminate].
  destruct (enumNodeFragments t (selection w !! 0%nat) true) as [ids thrown] eqn:He.
  destruct (getFragmentList m) as [fl|] eqn:Hfl.
  - destruct (forEach_enumCallback fl ids Box3_new Box3_new) as [fb' ->].
    destruct thrown; simpl; [discriminate|].
    intros [= <-]. exists m, t, ids. rewrite Hfl. by simpl.
  - destruct ids as [|i ids].
    + simpl. destruct thrown; simpl; [discriminate|].
      intros [= <-]. exists m, t, []. rewrite Hfl. by simpl.
    + rewrite forEach_enumCallback_null by done. discriminate.
Qed.

(** The centre when the viewer has a model with its instance tree and
    fragment list, and the enumeration does not throw. *)
Lemma selection_center_ok (w : World) m tree fl ids :
  model w = Some m -> getInstanceTree m = Some tree ->
  getFragmentList m = Some fl ->
  enumNodeFragments tree (selection w !! 0%nat) true = (ids, None) ->
  selection_center w =
    (inr (Box3_center (fold_left Box3_union (map (getWorldBounds fl) ids) Box3_new)),
     w, []).
Proof.
  intros Hm Ht Hfl He.
  unfold selection_center, call_enumNodeFragments. unfold_m. simpl.
  rewrite Hm; simpl. rewrite Hm; simpl. rewrite Ht, Hfl, He.
  destruct (forEach_enumCallback fl ids Box3_new Box3_new) as [fb' ->].
  reflexivity.
Qed.

(** The three ways the second half of the [try] block can end. *)
Lemma submit_device_cases (c : Vector3 num) (w : World) :
  (exists e, submit_device c w = (inl e, w, [])) \/
  exists v1 v2 v3,
    form_value w "deviceModelId" = Some v1 /\
    form_value w "deviceId" = Some v2 /\
    form_value w "deviceName" = Some v3 /\
    ((exists e, submit_device c w = (inl e, w, [Fetch (device_request w v1 v2 v3 c)]) /\
                forall text, network w (device_request w v1 v2 v3 c) <> Response true text) \/
     (exists text, network w (device_request w v1 v2 v3 c) = Response true text /\
        submit_device c w =
          (inr tt, w, [Fetch (device_request w v1 v2 v3 c); Alert success_message]))).
Proof.
  unfold submit_device, form_value, fetch, resp_text. unfold_m. simpl.
  destruct (document w !! "deviceModelId") as [e1|]; simpl; [|left; eexists; reflexivity].
  destruct (document w !! "deviceId") as [e2|]; simpl; [|left; eexists; reflexivity].
  destruct (document w !! "deviceName") as [e3|]; simpl; [|left; eexists; reflexivity].
  right. exists (value e1), (value e2), (value e3).
  split; [reflexivity|]. split; [reflexivity|]. split; [reflexivity|].
  unfold device_request.
  destruct (network w _) as [reason|ok text] eqn:Hnet; simpl.
  - left. eexists. split; [reflexivity|]. intros text; discriminate.
  - destruct ok; simpl.
    + right. exists text. split; reflexivity.
    + left. destruct text as [e|s]; simpl;
        (eexists; split; [reflexivity|]; intros text'; discriminate).
Qed.

(** The handler in terms of its two halves. *)
Lemma onSubmit_center_throws (w : World) (e : JsError) :
  selection_center w = (inl e, w, []) ->
  onSubmitButtonClick w = (inr tt, w, [Alert failure_message; ConsoleError e]).
Proof.
  intros H. unfold onSubmitButtonClick, submit_body, try_catch, bind.
  rewrite H. reflexivity.
Qed.

Lemma onSubmit_device_throws (w : World) c e t :
  selection_center w = (inr c, w, []) ->
  submit_device c w = (inl e, w, t) ->
  onSubmitButtonClick w = (inr tt, w, t ++ [Alert failure_message; ConsoleError e]) /\
  result_of (submit_body w) = inl e.
Proof.
  intros H1 H2. unfold onSubmitButtonClick, submit_body, try_catch, bind.
  rewrite H1, H2. split; reflexivity.
Qed.

Lemma onSubmit_device_returns (w : World) c t :
  selection_center w = (inr c, w, []) ->
  submit_device c w = (inr tt, w, t) ->
  onSubmitButtonClick w = (inr tt, w, t) /\ result_of (submit_body w) = inr tt.
Proof.
  intros H1 H2. unfold onSubmitButtonClick, submit_body, try_catch, bind.
  rewrite H1, H2. split; reflexivity.
Qed.

Lemma submit_run (w : World) : SubmitRun w.
Proof.
  destruct (selection_center_pure w) as [[e|c] Hc].
  - eapply CenterThrows; [exact Hc| |by apply onSubmit_center_throws].
    unfold submit_body, bind. by rewrite Hc.
  - destruct (submit_device_cases c w)
      as [[e He]|(v1 & v2 & v3 & H1 & H2 & H3 & [(e & He & Hnet)|(text & Hnet & He)])].
    + destruct (onSubmit_device_throws w c e [] Hc He) as [Hrun Hbody].
      by eapply FormThrows.
    + destruct (onSubmit_device_throws w c e _ Hc He) as [Hrun Hbody].
      by eapply RequestFails.
    + destruct (onSubmit_device_returns w c _ Hc He) as [Hrun Hbody].
      by eapply RequestSucceeds.
Qed.

Lemma success_not_failure : success_message <> failure_message.
Proof. discriminate. Qed.

(** The effects of a run that gets as far as the request. *)
Lemma submit_trace_by_outcome (w : World) (c : Vector3 num) (v1 v2 v3 : string) :
  result_of (selection_center w) = inr c ->
  form_value w "deviceModelId" = Some v1 ->
  form_value w "deviceId" = Some v2 ->
  form_value w "deviceName" = Some v3 ->
  trace_of (onSubmitButtonClick w) =
    Fetch (device_request w v1 v2 v3 c) ::
    match network w (device_request w v1 v2 v3 c) with
    | NetworkFailure reason => [Alert failure_message; ConsoleError reason]
    | Response true _ => [Alert success_message]
    | Response false (inr text) => [Alert failure_message; ConsoleError (Error text)]
    | Response false (inl e) => [Alert failure_message; ConsoleError e]
    end.
Proof.
  intros Hc H1 H2 H3.
  destruct (selection_center_pure w) as [r Hr].
  rewrite Hr in Hc. unfold result_of in Hc; simpl in Hc. subst r.
  unfold onSubmitButtonClick, submit_body, try_catch, bind at 1. rewrite Hr.
  unfold form_value in *.
  destruct (document w !! "deviceModelId") as [e1|] eqn:E1; [|done].
  destruct (document w !! "deviceId") as [e2|] eqn:E2; [|done].
  destruct (document w !! "deviceName") as [e3|] eqn:E3; [|done].
  simpl in H1, H2, H3. injection H1 as <-. injection H2 as <-. injection H3 as <-.
  unfold submit_device, fetch, resp_text, device_request. unfold_m. simpl.
  rewrite E1; simpl. rewrite E2; simpl. rewrite E3; simpl.
  destruct (network w _) as [reason|[] [e|text]]; reflexivity.
Qed.

(** The outcomes in terms of the run itself. *)
Lemma submit_two_outcomes_core (w : World) :
  result_of (onSubmitButtonClick w) = inr tt /\
  (alerts (trace_of (onSubmitButtonClick w)) = [success_message] \/
   alerts (trace_of (onSubmitButtonClick w)) = [failure_message]) /\
  (alerts (trace_of (onSubmitButtonClick w)) = [success_message] <->
   exists q text, requests (trace_of (onSubmitButtonClick w)) = [q] /\
                  network w q = Response true text) /\
  (alerts (trace_of (onSubmitButtonClick w)) = [failure_message] <->
   exists e, result_of (submit_body w) = inl e) /\
  (forall e, result_of (submit_body w) = inl e ->
             In (ConsoleError e) (trace_of (onSubmitButtonClick w))).
Proof.
  destruct (submit_run w); rewrite Hrun; unfold result_of, trace_of; simpl;
    (split; [reflexivity|]).
  - split; [by right|]. split; [|split].
    + split; [intros [= H]; by destruct success_not_failure|].
      intros (q & text & [=] & _).
    + split; [by eexists|done].
    + intros e' He'. unfold result_of in Hbody. rewrite Hbody in He'.
      injection He' as ->. auto.
  - split; [by right|]. split; [|split].
    + split; [intros [= H]; by destruct success_not_failure|].
      intros (q & text & [=] & _).
    + split; [by eexists|done].
    + intros e' He'. unfold result_of in Hbody. rewrite Hbody in He'.
      injection He' as ->. auto.
  - split; [by right|]. split; [|split].
    + split; [intros [= H]; by destruct success_not_failure|].
      intros (q & text & [= <-] & Hq). by destruct (Hnet text).
    + split; [by eexists|done].
    + intros e' He'. unfold result_of in Hbody. rewrite Hbody in He'.
      injection He' as ->. auto.
  - split; [by left|]. split; [|split].
    + split; [|done]. intros _. by eexists _, text.
    + split; [intros [= H]; by destruct success_not_failure|].
      intros [e He]. unfold result_of in Hbody. congruence.
    + intros e' He'. unfold result_of in Hbody. congruence.
Qed.

(** C2. Every run of the submit handler returns normally (nothing escapes
    the [try]/[catch]) and shows the user exactly one notification, which is
    one of two fixed texts: the success text exactly when a request went out
    and its response was ok, the generic failure text exactly when some step
    of the [try] block threw.  What was thrown goes to the console only.
    In terms of what the handler meets: an exception while the centre is
    computed, or a missing form field, gives the failure text and no
    request; once the request is out, an ok response gives the success
    text, and a rejected fetch or a response that is not ok gives the
    failure text. *)
Theorem submit_two_outcomes (w : World) :
  result_of (onSubmitButtonClick w) = inr tt /\
  (alerts (trace_of (onSubmitButtonClick w)) = [success_message] \/
   alerts (trace_of (onSubmitButtonClick w)) = [failure_message]) /\
  (alerts (trace_of (onSubmitButtonClick w)) = [success_message] <->
   exists q text, requests (trace_of (onSubmitButtonClick w)) = [q] /\
                  network w q = Response true text) /\
  (alerts (trace_of (onSubmitButtonClick w)) = [failure_message] <->
   exists e, result_of (submit_body w) = inl e) /\
  (forall e, result_of (submit_body w) = inl e ->
             In (ConsoleError e) (trace_of (onSubmitButtonClick w))) /\
  (forall e, result_of (selection_center w) = inl e ->
             trace_of (onSubmitButtonClick w) =
               [Alert failure_message; ConsoleError e]) /\
  (form_value w "deviceModelId" = None \/ form_value w "deviceId" = None \/
   form_value w "deviceName" = None ->
   alerts (trace_of (onSubmitButtonClick w)) = [failure_message] /\
   requests (trace_of (onSubmitButtonClick w)) = []) /\
  (forall c v1 v2 v3,
     result_of (selection_center w) = inr c ->
     form_value w "deviceModelId" = Some v1 ->
     form_value w "deviceId" = Some v2 ->
     form_value w "deviceName" = Some v3 ->
     requests (trace_of (onSubmitButtonClick w)) = [device_request w v1 v2 v3 c] /\
     (forall text, network w (device_request w v1 v2 v3 c) = Response true text ->
        alerts (trace_of (onSubmitButtonClick w)) = [success_message]) /\
     ((forall text, network w (device_request w v1 v2 v3 c) <> Response true text) ->
        alerts (trace_of (onSubmitButtonClick w)) = [failure_message])).
Proof.
  destruct (submit_two_outcomes_core w) as (H1 & H2 & H3 & H4 & H5).
  repeat (split; [assumption|]). split; [|split].
  - intros e He. destruct (selection_center_pure w) as [r Hr].
    rewrite Hr in He. unfold result_of in He; simpl in He. subst r.
    by rewrite (onSubmit_center_throws w e Hr).
  - intros Hmiss.
    destruct (submit_run w); rewrite Hrun; unfold trace_of; simpl; try done;
      destruct Hmiss as [H|[H|H]]; congruence.
  - intros c v1 v2 v3 Hc Hv1 Hv2 Hv3.
    rewrite (submit_trace_by_outcome w c v1 v2 v3 Hc Hv1 Hv2 Hv3).
    split; [|split].
    + by destruct (network w _) as [reason|[] [e|text]].
    + intros text ->. reflexivity.
    + intros Hno. destruct (network w _) as [reason|[] [e|text]]; try done.
      * by destruct (Hno (inl e)).
      * by destruct (Hno (inr text)).
Qed.

Lemma payload_position_device v1 v2 v3 (c : Vector3 num) :
  payload_position (device v1 v2 v3 c) = Some c.
Proof. destruct c; reflexivity. Qed.

(** The one request of a run whose steps before [fetch] complete. *)
Lemma requests_of_submit (w : World) (c : Vector3 num) (v1 v2 v3 : string) :
  result_of (selection_center w) = inr c ->
  form_value w "deviceModelId" = Some v1 ->
  form_value w "deviceId" = Some v2 ->
  form_value w "deviceName" = Some v3 ->
  requests (trace_of (onSubmitButtonClick w)) = [device_request w v1 v2 v3 c].
Proof.
  intros Hc H1 H2 H3.
  destruct (submit_run w); rewrite Hcenter in Hc; unfold result_of in Hc;
    simpl in Hc; try discriminate; injection Hc as ->.
  - (* a form field is missing: excluded *)
    exfalso. destruct (submit_device_cases c w) as [[e' He']|(u1 & u2 & u3 & _ & _ & _ & Hd)].
    + revert He'. unfold submit_device, form_value, getValue in *. unfold_m.
      destruct (document w !! "deviceModelId"); [|done].
      destruct (document w !! "deviceId"); [|done].
      destruct (document w !! "deviceName"); [|done].
      simpl. unfold fetch. unfold_m. simpl.
      destruct (network w _) as [|[] [|]]; discriminate.
    + unfold submit_body, bind in Hbody. rewrite Hcenter in Hbody.
      unfold onSubmitButtonClick, submit_body, try_catch, bind in Hrun.
      rewrite Hcenter in Hrun.
      destruct Hd as [(e' & He' & _)|(t & _ & He')]; rewrite He' in Hrun;
        discriminate.
  - rewrite Hrun. unfold trace_of, device_request, device; simpl. congruence.
  - rewrite Hrun. unfold trace_of, device_request, device; simpl. congruence.
Qed.

(** C3, as the code has it. When the centre computation completes with [c]
    and the three form fields are in the document, the handler sends exactly
    one request: to [options.url], with method [post], the single header
    [Content-Type: application/json], and as body the object with exactly
    the keys [deviceModelId], [deviceId], [deviceName] (the field values)
    and [positon] (the object with [x], [y], [z] of [c]). *)
Theorem submit_posts_one_device (w : World) (c : Vector3 num) (v1 v2 v3 : string) :
  result_of (selection_center w) = inr c ->
  form_value w "deviceModelId" = Some v1 ->
  form_value w "deviceId" = Some v2 ->
  form_value w "deviceName" = Some v3 ->
  requests (trace_of (onSubmitButtonClick w)) =
    [mkRequest (options w !! "url") "post" [("Content-Type", "application/json")]
       (JObject [("deviceModelId", JString v1);
                 ("deviceId", JString v2);
                 ("deviceName", JString v3);
                 ("positon", JObject [("x", JNumber (x c));
                                      ("y", JNumber (y c));
                                      ("z", JNumber (z c))])])].
Proof.
  intros Hc H1 H2 H3. by rewrite (requests_of_submit w c v1 v2 v3).
Qed.

(** When a step before the request throws, nothing is sent. *)
Lemma submit_posts_nothing (w : World) (e : JsError) :
  result_of (selection_center w) = inl e ->
  requests (trace_of (onSubmitButtonClick w)) = [].
Proof.
  intros Hc. destruct (selection_center_pure w) as [r Hr].
  rewrite Hr in Hc. unfold result_of in Hc; simpl in Hc. subst r.
  by rewrite (onSubmit_center_throws w e Hr).
Qed.

(** C4. With a first selected identifier [dbid], whatever request the
    handler sends carries as [positon] the centre of the box obtained from
    the empty box by uniting, in order, the world bounds of every fragment
    the instance tree enumerates for [dbid]. *)
Theorem payload_position_is_union_center (w : World) (dbid : Z) (rest : list Z)
    (q : Request) :
  selection w = dbid :: rest ->
  In (Fetch q) (trace_of (onSubmitButtonClick w)) ->
  exists m tree ids,
    model w = Some m /\ getInstanceTree m = Some tree /\
    enumNodeFragments tree (Some dbid) true = (ids, None) /\
    payload_position (body q) =
      Some (Box3_center
              (fold_left Box3_union (fragment_boxes (getFragmentList m) ids)
                         Box3_new)).
Proof.
  intros Hsel Hin.
  assert (Hinv : forall c, selection_center w = (inr c, w, []) ->
            exists m tree ids,
              model w = Some m /\ getInstanceTree m = Some tree /\
              enumNodeFragments tree (Some dbid) true = (ids, None) /\
              c = Box3_center
                    (fold_left Box3_union
                       (fragment_boxes (getFragmentList m) ids) Box3_new)).
  { intros c Hc. destruct (selection_center_inv w c) as (m & t & ids & Hm & Ht & He & ->).
    - by rewrite Hc.
    - rewrite Hsel in He. simpl in He. by exists m, t, ids. }
  destruct (submit_run w); rewrite Hrun in Hin; unfold trace_of in Hin; simpl in Hin.
  - destruct Hin as [|[|[]]]; discriminate.
  - destruct Hin as [|[|[]]]; discriminate.
  - destruct Hin as [[= <-]|[|[|[]]]]; try discriminate.
    destruct (Hinv c Hcenter) as (m & t & ids & Hm & Ht & He & ->).
    exists m, t, ids. simpl. by rewrite payload_position_device.
  - destruct Hin as [[= <-]|[|[]]]; try discriminate.
    destruct (Hinv c Hcenter) as (m & t & ids & Hm & Ht & He & ->).
    exists m, t, ids. simpl. by rewrite payload_position_device.
Qed.

(** ** The handler and the size of the selection *)

Lemma call_enumNodeFragments_world tree node frags boxes :
  exists r, forall w : World,
    call_enumNodeFragments tree node (enumCallback frags) true boxes w = (r, w, []).
Proof.
  unfold call_enumNodeFragments.
  destruct tree as [t|]; [|eexists; reflexivity].
  destruct (enumNodeFragments t node true) as [ids thrown].
  destruct frags as [fl|].
  - destruct boxes as [total fb].
    destruct (forEach_enumCallback fl ids total fb) as [fb' H].
    destruct thrown; eexists; intros w; unfold bind; rewrite H; reflexivity.
  - destruct ids as [|i ids].
    + destruct thrown; eexists; intros w; reflexivity.
    + eexists; intros w; unfold bind.
      rewrite forEach_enumCallback_null by done. reflexivity.
Qed.

(** The centre depends on the world through the model and the first
    element of the selection only. *)
Lemma selection_center_world (w w' : World) :
  model w = model w' ->
  selection w !! 0%nat = selection w' !! 0%nat ->
  exists r, selection_center w = (r, w, []) /\ selection_center w' = (r, w', []).
Proof.
  intros Hm Hs.
  unfold selection_center. unfold_m. cbn -[call_enumNodeFragments].
  rewrite <- Hm, <- Hs.
  destruct (model w) as [m|] eqn:Em; cbn -[call_enumNodeFragments];
    [|eexists; split; reflexivity].
  rewrite <- Hm, Em. cbn -[call_enumNodeFragments].
  destruct (call_enumNodeFragments_world (getInstanceTree m) (selection w !! 0%nat)
              (getFragmentList m) (Box3_new, Box3_new)) as [r H].
  rewrite !H. destruct r; eexists; split; reflexivity.
Qed.

Lemma submit_device_world (c : Vector3 num) (w w' : World) :
  document w = document w' -> options w = options w' -> network w = network w' ->
  exists r t, submit_device c w = (r, w, t) /\ submit_device c w' = (r, w', t).
Proof.
  intros Hd Ho Hn.
  unfold submit_device, fetch, resp_text. unfold_m. simpl.
  rewrite <- ?Hd.
  destruct (document w !! "deviceModelId") as [e1|]; simpl; rewrite <- ?Hd;
    [|eexists _, _; split; reflexivity].
  destruct (document w !! "deviceId") as [e2|]; simpl; rewrite <- ?Hd;
    [|eexists _, _; split; reflexivity].
  destruct (document w !! "deviceName") as [e3|]; simpl;
    [|eexists _, _; split; reflexivity].
  rewrite <- ?Ho, <- ?Hn.
  destruct (network w _) as [reason|[] [e|text]]; simpl;
    eexists _, _; split; reflexivity.
Qed.

Lemma onSubmitButtonClick_world (w w' : World) :
  model w = model w' ->
  selection w !! 0%nat = selection w' !! 0%nat ->
  document w = document w' -> options w = options w' -> network w = network w' ->
  exists t, onSubmitButtonClick w = (inr tt, w, t) /\
            onSubmitButtonClick w' = (inr tt, w', t).
Proof.
  intros Hm Hs Hd Ho Hn.
  destruct (selection_center_world w w' Hm Hs) as [[e|c] [H1 H2]].
  - rewrite (onSubmit_center_throws w e H1), (onSubmit_center_throws w' e H2).
    by eexists.
  - destruct (submit_device_world c w w' Hd Ho Hn) as ([e|[]] & t & Hd1 & Hd2).
    + destruct (onSubmit_device_throws w c e t H1 Hd1) as [-> _].
      destruct (onSubmit_device_throws w' c e t H2 Hd2) as [-> _].
      by eexists.
    + destruct (onSubmit_device_returns w c t H1 Hd1) as [-> _].
      destruct (onSubmit_device_returns w' c t H2 Hd2) as [-> _].
      by eexists.
Qed.

(** The request of a run in a world where the viewer has its model, tree
    and fragment list, the enumeration for the first selected element does
    not throw, and the form is in the document. *)
Lemma requests_with_selection (w : World) (sel : list Z) m tree fl ids v1 v2 v3 :
  model w = Some m -> getInstanceTree m = Some tree ->
  getFragmentList m = Some fl ->
  enumNodeFragments tree (sel !! 0%nat) true = (ids, None) ->
  form_value w "deviceModelId" = Some v1 ->
  form_value w "deviceId" = Some v2 ->
  form_value w "deviceName" = Some v3 ->
  requests (trace_of (onSubmitButtonClick (with_selection sel w))) =
    [device_request w v1 v2 v3
       (Box3_center (fold_left Box3_union (map (getWorldBounds fl) ids) Box3_new))].
Proof.
  intros Hm Ht Hfl He H1 H2 H3.
  apply (requests_of_submit (with_selection sel w)); try done.
  by rewrite (selection_center_ok (with_selection sel w) m tree fl ids).
Qed.

(** C5. The submit handler never looks at the size of the selection: for a
    selection list [sel] of any length, empty and multi-element included, it
    passes [sel[0]] ([undefined] for the empty list) to the fragment
    enumeration and goes on to send the device built from that enumeration,
    returning normally. *)
Theorem submit_reads_first_without_check (w : World) (sel : list Z)
    m tree fl ids v1 v2 v3 :
  model w = Some m -> getInstanceTree m = Some tree ->
  getFragmentList m = Some fl ->
  enumNodeFragments tree (sel !! 0%nat) true = (ids, None) ->
  form_value w "deviceModelId" = Some v1 ->
  form_value w "deviceId" = Some v2 ->
  form_value w "deviceName" = Some v3 ->
  result_of (onSubmitButtonClick (with_selection sel w)) = inr tt /\
  requests (trace_of (onSubmitButtonClick (with_selection sel w))) =
    [device_request w v1 v2 v3
       (Box3_center (fold_left Box3_union (map (getWorldBounds fl) ids) Box3_new))].
Proof.
  intros Hm Ht Hfl He H1 H2 H3. split.
  - destruct (submit_run (with_selection sel w)); by rewrite Hrun.
  - by apply (requests_with_selection w sel m tree fl ids).
Qed.

(** C10. With more than one object selected, the handler runs exactly as if
    only the first were: same result and same effects as with the selection
    cut down to its first identifier.  And with the viewer's model and the
    form in place it sends the device record with the three field values
    and the centre of the first identifier's fragments. *)
Theorem multi_selection_uses_first_only (w : World) (d : Z) (rest : list Z)
    m tree fl ids v1 v2 v3 :
  rest <> [] ->
  model w = Some m -> getInstanceTree m = Some tree ->
  getFragmentList m = Some fl ->
  enumNodeFragments tree (Some d) true = (ids, None) ->
  form_value w "deviceModelId" = Some v1 ->
  form_value w "deviceId" = Some v2 ->
  form_value w "deviceName" = Some v3 ->
  result_of (onSubmitButtonClick (with_selection (d :: rest) w)) =
    result_of (onSubmitButtonClick (with_selection [d] w)) /\
  trace_of (onSubmitButtonClick (with_selection (d :: rest) w)) =
    trace_of (onSubmitButtonClick (with_selection [d] w)) /\
  requests (trace_of (onSubmitButtonClick (with_selection (d :: rest) w))) =
    [mkRequest (options w !! "url") "post" [("Content-Type", "application/json")]
       (JObject [("deviceModelId", JString v1);
                 ("deviceId", JString v2);
                 ("deviceName", JString v3);
                 ("positon",
                  JObject [("x", JNumber (x (Box3_center (fold_left Box3_union
                                    (map (getWorldBounds fl) ids) Box3_new))));
                           ("y", JNumber (y (Box3_center (fold_left Box3_union
                                    (map (getWorldBounds fl) ids) Box3_new))));
                           ("z", JNumber (z (Box3_center (fold_left Box3_union
                                    (map (getWorldBounds fl) ids) Box3_new))))])])].
Proof.
  intros _ Hm Ht Hfl He H1 H2 H3.
  pose proof (requests_with_selection w (d :: rest) m tree fl ids v1 v2 v3
                Hm Ht Hfl He H1 H2 H3) as Hreq.
  destruct (onSubmitButtonClick_world (with_selection (d :: rest) w)
              (with_selection [d] w)) as (t & Hrun & ->); try reflexivity.
  rewrite Hrun in *.
  split; [reflexivity|]. split; [reflexivity|]. exact Hreq.
Qed.

(** ** The endpoint *)

Lemma DeviceExtension_new_run (opts : option (gmap string string)) (w : World) :
  DeviceExtension_new opts w =
    (inr tt,
     mkWorld (selection w) (model w) (toolbar w) (store w) (selectionListeners w)
             (document w) (network w) (<["url" := default_url]> (default ∅ opts))
             None None None,
     []).
Proof. reflexivity. Qed.

Lemma request_url (w : World) (q : Request) :
  In (Fetch q) (trace_of (onSubmitButtonClick w)) -> url q = options w !! "url".
Proof.
  intros Hin.
  destruct (submit_run w); rewrite Hrun in Hin; unfold trace_of in Hin; simpl in Hin.
  - destruct Hin as [|[|[]]]; discriminate.
  - destruct Hin as [|[|[]]]; discriminate.
  - destruct Hin as [[= <-]|[|[|[]]]]; try discriminate. reflexivity.
  - destruct Hin as [[= <-]|[|[]]]; try discriminate. reflexivity.
Qed.

(** C6, as the code has it. The constructor stores the fixed url
    [/api/devices?provider=synthetic&project=unused] in [options.url]
    whatever options it is given, keeping their other properties; and as
    long as the options object is as the constructor left it, every request
    of the submit handler goes to [options.url], that is, to the fixed
    url. *)
Theorem submit_posts_to_fixed_url (opts : option (gmap string string))
    (w0 w : World) (q : Request) :
  options w = options (world_of (DeviceExtension_new opts w0)) ->
  In (Fetch q) (trace_of (onSubmitButtonClick w)) ->
  url q = options w !! "url" /\
  url q = Some "/api/devices?provider=synthetic&project=unused" /\
  (forall k, k <> "url" -> options w !! k = default ∅ opts !! k).
Proof.
  intros Ho Hin. rewrite (request_url w q Hin), Ho.
  rewrite DeviceExtension_new_run. unfold world_of; simpl.
  split; [reflexivity|]. split.
  - by rewrite lookup_insert_eq.
  - intros k Hk. by rewrite lookup_insert_ne.
Qed.

(** ** The toolbar *)

Section Store.
Context {A : Type}.
Implicit Types (h : list A) (a b : A).

Lemma store_lookup_first h a b : ((h ++ [a]) ++ [b]) !! length h = Some a.
Proof. induction h; simpl; auto. Qed.

Lemma store_lookup_second h a b : ((h ++ [a]) ++ [b]) !! S (length h) = Some b.
Proof. induction h; simpl; auto. Qed.

Lemma store_insert_first h a a' b :
  <[length h := a']> ((h ++ [a]) ++ [b]) = (h ++ [a']) ++ [b].
Proof. induction h; simpl; [done|]. by f_equal. Qed.

Lemma store_insert_second h a b b' :
  <[S (length h) := b']> ((h ++ [a]) ++ [b]) = (h ++ [a]) ++ [b'].
Proof. induction h; simpl; [done|]. by f_equal. Qed.

Lemma store_length_snoc h a : length (h ++ [a]) = S (length h).
Proof. rewrite length_app. simpl. lia. Qed.
End Store.

Lemma group_addControl_run (w : World) (g l : loc) id cs :
  store w !! g = Some (ControlGroup id cs) ->
  group_addControl g l w =
    (inr tt, with_store (<[g := ControlGroup id (cs ++ [l])]> (store w)) w, []).
Proof. intros H. unfold group_addControl. unfold_m. by rewrite H. Qed.

Lemma setToolTip_run (w : World) (b : loc) text id tip click :
  store w !! b = Some (Button id tip click) ->
  setToolTip b text w =
    (inr tt, with_store (<[b := Button id (Some text) click]> (store w)) w, []).
Proof. intros H. unfold setToolTip. unfold_m. by rewrite H. Qed.

Lemma set_onClick_run (w : World) (b : loc) handler id tip click :
  store w !! b = Some (Button id tip click) ->
  set_onClick b handler w =
    (inr tt, with_store (<[b := Button id tip (Some handler)]> (store w)) w, []).
Proof. intros H. unfold set_onClick. unfold_m. by rewrite H. Qed.

Lemma toolbar_getControl_run (w : World) (tb : list loc) id :
  toolbar w = Some tb ->
  toolbar_getControl id w = (inr (getControl (store w) tb id), w, []).
Proof. intros H. unfold toolbar_getControl. unfold_m. by rewrite H. Qed.

Lemma toolbar_addControl_run (w : World) (tb : list loc) l :
  toolbar w = Some tb ->
  toolbar_addControl l w = (inr tt, with_toolbar (Some (tb ++ [l])) w, []).
Proof. intros H. unfold toolbar_addControl. unfold_m. by rewrite H. Qed.

(** The first call on a toolbar without the group creates group and
    button. *)
Lemma createUI_fresh (w : World) (tb : list loc) :
  toolbar w = Some tb ->
  getControl (store w) tb "device-extension-group" = None ->
  _createUI w =
    (inr tt,
     mkWorld (selection w) (model w) (Some (tb ++ [length (store w)]))
             ((store w ++
                [ControlGroup "device-extension-group" [S (length (store w))]]) ++
                [Button "add-device-button" (Some "Add Device") (Some TogglePanel)])
             (selectionListeners w) (document w) (network w) (options w) (_panel w)
             (Some (length (store w))) (Some (S (length (store w)))),
     []).
Proof.
  intros Htb Hget.
  unfold _createUI, toolbar_getControl, toolbar_addControl, new_control,
    this_group, this_button, group_addControl, setToolTip, set_onClick.
  unfold_m. simpl. rewrite Htb. simpl. rewrite Hget. simpl. rewrite Htb. simpl.
  rewrite store_length_snoc, store_lookup_first. simpl.
  rewrite store_insert_first, store_lookup_second. simpl.
  rewrite store_insert_second, store_lookup_second. simpl.
  rewrite store_insert_second. reflexivity.
Qed.

(** A call on a toolbar that has the group only records it in
    [this._group]. *)
Lemma createUI_existing (w : World) (tb : list loc) (g : loc) :
  toolbar w = Some tb ->
  getControl (store w) tb "device-extension-group" = Some g ->
  _createUI w = (inr tt, with_group (Some g) w, []).
Proof.
  intros Htb Hget. unfold _createUI, toolbar_getControl. unfold_m. simpl.
  rewrite Htb. simpl. rewrite Hget. reflexivity.
Qed.

Lemma has_id_app (h h' : list Control) (id : string) (l : loc) :
  (l < length h)%nat -> has_id (h ++ h') id l = has_id h id l.
Proof. intros Hl. unfold has_id. by rewrite lookup_app_l. Qed.

Lemma find_snoc_fresh {A} (f : A -> bool) (l : list A) (a : A) :
  (forall y, In y l -> f y = false) -> f a = true ->
  List.find f (l ++ [a]) = Some a.
Proof.
  intros Hl Ha. induction l as [|y l IH]; simpl.
  - by rewrite Ha.
  - rewrite (Hl y) by (by left). apply IH. intros y' Hy'. apply Hl. by right.
Qed.

Lemma filter_snoc_fresh {A} (f : A -> bool) (l : list A) (a : A) :
  (forall y, In y l -> f y = false) -> f a = true ->
  List.filter f (l ++ [a]) = [a].
Proof.
  intros Hl Ha. induction l as [|y l IH]; simpl.
  - by rewrite Ha.
  - rewrite (Hl y) by (by left). apply IH. intros y' Hy'. apply Hl. by right.
Qed.

Lemma times_fixed (m : M unit) (w : World) (n : nat) :
  m w = (inr tt, w, []) -> times n m w = (inr tt, w, []).
Proof.
  intros H. induction n as [|n IH]; simpl; [reflexivity|].
  by rewrite (bind_ok _ _ _ _ _ H).
Qed.

(** C7. On a toolbar that does not hold the group yet (and whose entries
    are allocated controls), one call of [_createUI] and any larger number
    of calls in a row end in the same world: the toolbar holds exactly one
    control named [device-extension-group], that control is a group holding
    exactly one control, the button [add-device-button], and a further call
    finds the group and changes nothing. *)
Theorem createUI_idempotent (w : World) (tb : list loc) (n : nat) :
  toolbar w = Some tb ->
  Forall (fun l => (l < length (store w))%nat) tb ->
  getControl (store w) tb "device-extension-group" = None ->
  exists w' g b,
    _createUI w = (inr tt, w', []) /\
    times (S n) _createUI w = (inr tt, w', []) /\
    _createUI w' = (inr tt, w', []) /\
    toolbar_controls_named w' "device-extension-group" = [g] /\
    store w' !! g = Some (ControlGroup "device-extension-group" [b]) /\
    store w' !! b =
      Some (Button "add-device-button" (Some "Add Device") (Some TogglePanel)) /\
    _group w' = Some g /\ _button w' = Some b.
Proof.
  intros Htb Hwf Hget.
  pose proof (createUI_fresh w tb Htb Hget) as Hrun.
  set (G := ControlGroup "device-extension-group" [S (length (store w))]) in *.
  set (B := Button "add-device-button" (Some "Add Device") (Some TogglePanel)) in *.
  set (w' := mkWorld _ _ _ _ _ _ _ _ _ _ _) in Hrun.
  assert (Hold : forall l, In l tb ->
            has_id ((store w ++ [G]) ++ [B]) "device-extension-group" l = false).
  { intros l Hl. rewrite <- app_assoc, has_id_app.
    - apply (find_none _ _ Hget l Hl).
    - rewrite Forall_forall in Hwf. apply Hwf. by apply list_elem_of_In. }
  assert (Hnew : has_id ((store w ++ [G]) ++ [B]) "device-extension-group"
                        (length (store w)) = true).
  { unfold has_id. by rewrite store_lookup_first. }
  assert (Hagain : _createUI w' = (inr tt, w', [])).
  { rewrite (createUI_existing w' (tb ++ [length (store w)]) (length (store w))).
    - reflexivity.
    - reflexivity.
    - unfold getControl. simpl. by apply find_snoc_fresh. }
  exists w', (length (store w)), (S (length (store w))).
  split; [exact Hrun|]. split; [|split; [exact Hagain|]].
  - simpl. rewrite (bind_ok _ _ _ _ _ Hrun). by apply times_fixed.
  - split; [|split; [|split; [|split]]]; try reflexivity.
    + unfold toolbar_controls_named. simpl. by apply filter_snoc_fresh.
    + simpl. apply store_lookup_first.
    + simpl. apply store_lookup_second.
Qed.

(** * Further properties of the code *)

(** ** _createUI at the edges *)

(** When the viewer has no toolbar, [_createUI] (and so [onToolbarCreated])
    throws a TypeError at line 33, before anything is assigned or created:
    the world is left as it was. *)
Theorem createUI_without_toolbar (w : World) :
  toolbar w = None ->
  exists msg,
    _createUI w = (inl (TypeError msg), w, []) /\
    onToolbarCreated w = (inl (TypeError msg), w, []).
Proof.
  intros Htb. unfold onToolbarCreated, _createUI, toolbar_getControl. unfold_m.
  simpl. rewrite Htb. eexists. split; reflexivity.
Qed.

(** On a toolbar that already holds a control named
    [device-extension-group], [_createUI] creates nothing: toolbar and store
    stay as they are, [this._group] refers to the control found, and
    [this._button] is not assigned. *)
Theorem createUI_skips_existing_group (w : World) (tb : list loc) (g : loc) :
  toolbar w = Some tb ->
  getControl (store w) tb "device-extension-group" = Some g ->
  exists w',
    _createUI w = (inr tt, w', []) /\
    toolbar w' = Some tb /\ store w' = store w /\
    _group w' = Some g /\ _button w' = _button w /\
    _panel w' = _panel w /\ document w' = document w /\
    In g tb /\ has_id (store w) "device-extension-group" g = true.
Proof.
  intros Htb Hget. exists (with_group (Some g) w).
  split; [by apply (createUI_existing w tb g)|].
  repeat (split; [done|]).
  apply find_some in Hget. exact Hget.
Qed.

(** Creating the group leaves what was there alone: every control
    already in the store is unchanged, the toolbar keeps its entries in
    order and gains the new group at the end, and nothing outside the
    toolbar is touched. *)
Theorem createUI_keeps_existing_controls (w : World) (tb : list loc) :
  toolbar w = Some tb ->
  getControl (store w) tb "device-extension-group" = None ->
  exists w',
    _createUI w = (inr tt, w', []) /\
    toolbar w' = Some (tb ++ [length (store w)]) /\
    (forall l c, store w !! l = Some c -> store w' !! l = Some c) /\
    length (store w') = S (S (length (store w))) /\
    selection w' = selection w /\ document w' = document w /\
    options w' = options w /\ _panel w' = _panel w /\
    selectionListeners w' = selectionListeners w.
Proof.
  intros Htb Hget. eexists. split; [apply (createUI_fresh w tb Htb Hget)|].
  simpl. split; [reflexivity|]. split; [|split; [|done]].
  - intros l c Hl. rewrite <- app_assoc. by apply lookup_app_l_Some.
  - rewrite !length_app. simpl. lia.
Qed.

(** ** The selection-change handler at the edges *)

(** The handler returns normally exactly when the document holds the
    submit button; without it the handler throws a TypeError and leaves the
    world as it was. *)
Theorem selection_changed_needs_button (w : World) :
  (result_of (onViewerSelectionChanged w) = inr tt <->
   is_Some (document w !! "submitBtn")) /\
  (document w !! "submitBtn" = None ->
   exists msg, onViewerSelectionChanged w = (inl (TypeError msg), w, [])).
Proof.
  destruct (document w !! "submitBtn") as [btn|] eqn:Hbtn.
  - rewrite (onViewerSelectionChanged_run w btn Hbtn). split; [|done].
    split; [by eexists|done].
  - assert (H : exists msg, onViewerSelectionChanged w = (inl (TypeError msg), w, [])).
    { unfold_m. destruct (Nat.eqb (length (selection w)) 1); simpl;
        rewrite Hbtn; eexists; reflexivity. }
    split; [|by intros _].
    destruct H as [msg ->]. split; [discriminate|]. intros [? [=]].
Qed.

(** The handler touches nothing but the [disabled] attribute of the submit
    button: the button keeps its value, its click listeners and its other
    attributes, every other element of the document is unchanged, and so
    are selection, listeners, options, panel and toolbar. *)
Theorem selection_changed_frame (w : World) (btn : Element) :
  document w !! "submitBtn" = Some btn ->
  exists w' btn',
    onViewerSelectionChanged w = (inr tt, w', []) /\
    document w' !! "submitBtn" = Some btn' /\
    value btn' = value btn /\ clickListeners btn' = clickListeners btn /\
    (forall a, a <> "disabled" -> attributes btn' !! a = attributes btn !! a) /\
    (forall id, id <> "submitBtn" -> document w' !! id = document w !! id) /\
    selection w' = selection w /\ selectionListeners w' = selectionListeners w /\
    options w' = options w /\ _panel w' = _panel w /\
    toolbar w' = toolbar w /\ store w' = store w.
Proof.
  intros Hbtn. eexists _, _.
  split; [apply (onViewerSelectionChanged_run w btn Hbtn)|]. simpl.
  split; [apply lookup_insert_eq|].
  destruct (Nat.eqb (length (selection w)) 1); simpl.
  - repeat (split; [done|]). split.
    + intros a Ha. by rewrite lookup_delete_ne.
    + split; [|done]. intros id Hid. by rewrite lookup_insert_ne.
  - repeat (split; [done|]). split.
    + intros a Ha. by rewrite lookup_insert_ne.
    + split; [|done]. intros id Hid. by rewrite lookup_insert_ne.
Qed.

(** Running the handler again without a change of selection changes
    nothing: the second run ends in the world the first one left. *)
Theorem selection_changed_idempotent (w : World) :
  is_Some (document w !! "submitBtn") ->
  exists w',
    onViewerSelectionChanged w = (inr tt, w', []) /\
    onViewerSelectionChanged w' = (inr tt, w', []).
Proof.
  intros [btn Hbtn]. eexists.
  split; [apply (onViewerSelectionChanged_run w btn Hbtn)|].
  erewrite onViewerSelectionChanged_run; [|simpl; apply lookup_insert_eq].
  simpl. unfold with_document; simpl. rewrite insert_insert_eq.
  destruct (Nat.eqb (length (selection w)) 1); simpl.
  - by rewrite delete_delete_eq.
  - by rewrite insert_insert_eq.
Qed.

(** ** The toolbar button's click closure *)

Lemma form_elements_fresh (d : gmap string Element) (i : string) :
  d !! i = None -> (d ∪ form_elements) !! i = form_elements !! i.
Proof. intros H. by rewrite form_elements_lookup, H. Qed.

Lemma NewDevicePanel_new_facts (id title : string) (w : World) :
  document w !! "deviceModelId" = None -> document w !! "deviceId" = None ->
  document w !! "deviceName" = None -> document w !! "submitBtn" = None ->
  exists w',
    NewDevicePanel_new id title w = (inr (mkPanel id title false), w', []) /\
    (selection w' = selection w /\ model w' = model w /\ toolbar w' = toolbar w /\
     store w' = store w /\ network w' = network w /\ options w' = options w /\
     _panel w' = _panel w /\ _group w' = _group w /\ _button w' = _button w) /\
    selectionListeners w' = selectionListeners w ++ [OnViewerSelectionChanged] /\
    form_value w' "deviceModelId" = Some "dm1" /\
    form_value w' "deviceId" = Some "" /\
    form_value w' "deviceName" = Some "" /\
    clickListeners <$> document w' !! "submitBtn" = Some [OnSubmitButtonClick] /\
    submit_state w' =
      Some (if Nat.eqb (length (selection w)) 1 then Enabled else Disabled).
Proof.
  intros F1 F2 F3 F4.
  destruct (NewDevicePanel_new_run id title w) as (w0 & Hrun0 & _ & _ & Hst).
  destruct (NewDevicePanel_new_spec id title w)
    as (w' & Hrun & Hframe & Hl & Hb & Hd).
  rewrite Hrun in Hrun0. injection Hrun0 as <-.
  exists w'. split; [done|]. split; [done|]. split; [done|].
  unfold form_value. rewrite !Hd by done. rewrite !form_elements_fresh by done.
  repeat (split; [done|]). split; [|done].
  rewrite Hb, F4. reflexivity.
Qed.

Lemma button_onClick_first (w w0 : World) :
  _panel w = None ->
  NewDevicePanel_new "new-device-panel" "Add Device" w =
    (inr (mkPanel "new-device-panel" "Add Device" false), w0, []) ->
  button_onClick w =
    (inr tt, with_panel (Some (mkPanel "new-device-panel" "Add Device" true)) w0, []).
Proof.
  intros Hp Hnew. unfold button_onClick, bind, gets, modify. simpl.
  rewrite Hp, Hnew. reflexivity.
Qed.

Lemma button_onClick_toggle (w : World) (p : NewDevicePanel) :
  _panel w = Some p ->
  button_onClick w =
    (inr tt, with_panel (Some (setVisible (negb (visible p)) p)) w, []).
Proof.
  intros Hp. unfold button_onClick, bind, gets, modify, ret. simpl.
  rewrite Hp. simpl. rewrite Hp. reflexivity.
Qed.

(** The first click on the toolbar button, on a page that does not use the
    four ids of the form yet, builds the panel and shows it: the form is
    found in the document with its initial values ([dm1] and two empty
    fields), the submit button has exactly one click listener, the viewer
    gains exactly one selection listener, and the submit control is Enabled
    exactly when one object is selected at that moment.  Selection and
    toolbar are left alone. *)
Theorem first_click_builds_panel (w : World) :
  _panel w = None ->
  document w !! "deviceModelId" = None -> document w !! "deviceId" = None ->
  document w !! "deviceName" = None -> document w !! "submitBtn" = None ->
  exists w',
    button_onClick w = (inr tt, w', []) /\
    _panel w' = Some (mkPanel "new-device-panel" "Add Device" true) /\
    selectionListeners w' = selectionListeners w ++ [OnViewerSelectionChanged] /\
    form_value w' "deviceModelId" = Some "dm1" /\
    form_value w' "deviceId" = Some "" /\
    form_value w' "deviceName" = Some "" /\
    clickListeners <$> document w' !! "submitBtn" = Some [OnSubmitButtonClick] /\
    submit_state w' =
      Some (if Nat.eqb (length (selection w)) 1 then Enabled else Disabled) /\
    selection w' = selection w /\ toolbar w' = toolbar w /\ store w' = store w.
Proof.
  intros Hp F1 F2 F3 F4.
  destruct (NewDevicePanel_new_facts "new-device-panel" "Add Device" w F1 F2 F3 F4)
    as (w0 & Hnew & (Hs & _ & Ht & Hst & _) & Hl & H1 & H2 & H3 & Hc & Hb).
  eexists. split; [apply (button_onClick_first w w0 Hp Hnew)|].
  by repeat (split; [done|]).
Qed.

(** Once the panel exists, two clicks on the toolbar button bring the
    world back exactly: the panel is hidden and shown (or shown and hidden)
    and nothing else happens. *)
Theorem two_clicks_restore (w : World) (p : NewDevicePanel) :
  _panel w = Some p ->
  times 2 button_onClick w = (inr tt, w, []).
Proof.
  intros Hp. simpl.
  rewrite (bind_ok _ _ _ _ _ (button_onClick_toggle w p Hp)).
  erewrite bind_ok; [|by apply button_onClick_toggle].
  unfold ret. destruct w, p; simpl in *. subst.
  unfold with_panel, setVisible; simpl. by rewrite negb_involutive.
Qed.



(** ** The submit handler: frame, order and failures *)

Lemma onSubmit_returns (w : World) :
  exists t, onSubmitButtonClick w = (inr tt, w, t).
Proof. destruct (submit_run w); by eexists. Qed.

Lemma bind_run {A B} (m : M A) (k : A -> M B) (w w1 : World) (a : A) t1 :
  m w = (inr a, w1, t1) ->
  bind m k w = (result_of (k a w1), world_of (k a w1), t1 ++ trace_of (k a w1)).
Proof.
  intros H. unfold bind. rewrite H. by destruct (k a w1) as [[r w2] t2].
Qed.

(** The submit handler changes nothing in the page: after it has run,
    whatever the outcome, the document (so the form keeps what was typed),
    the selection, the panel, the options and the toolbar are as before. *)
Theorem submit_leaves_world (w : World) :
  world_of (onSubmitButtonClick w) = w.
Proof. destruct (onSubmit_returns w) as [t ->]. reflexivity. Qed.

(** Submits are not deduplicated: [n] clicks in a row do [n] times what one
    click does, in the same world, so [n] times the requests of one. *)
Theorem repeated_submits (w : World) (n : nat) :
  times n onSubmitButtonClick w =
    (inr tt, w, concat (replicate n (trace_of (onSubmitButtonClick w)))) /\
  requests (trace_of (times n onSubmitButtonClick w)) =
    concat (replicate n (requests (trace_of (onSubmitButtonClick w)))).
Proof.
  destruct (onSubmit_returns w) as [t Ht].
  assert (Hn : times n onSubmitButtonClick w = (inr tt, w, concat (replicate n t))).
  { induction n as [|n IH]; [reflexivity|].
    simpl. rewrite (bind_run _ _ _ _ _ _ Ht), IH. reflexivity. }
  rewrite Hn, Ht. split; [reflexivity|].
  unfold trace_of; simpl. clear Hn.
  induction n as [|n IH]; [reflexivity|].
  simpl. unfold requests in *. by rewrite omap_app, IH.
Qed.

(** The effects of a run, in order: the request, if there is one, comes
    first; then exactly one alert; and a console error follows a failure
    alert only.  There is never a second request. *)
Theorem submit_effects_in_order (w : World) :
  (exists e, trace_of (onSubmitButtonClick w) =
               [Alert failure_message; ConsoleError e]) \/
  (exists q e, trace_of (onSubmitButtonClick w) =
                 [Fetch q; Alert failure_message; ConsoleError e]) \/
  (exists q, trace_of (onSubmitButtonClick w) = [Fetch q; Alert success_message]).
Proof.
  destruct (submit_run w); rewrite Hrun; unfold trace_of; simpl.
  - left. by eexists.
  - left. by eexists.
  - right. left. by eexists _, _.
  - right. right. by eexists.
Qed.

(** What the user and the console see once the request is out, by the
    outcome of [fetch]: a rejected promise is logged as it is; a response
    that is not ok has its body read and logged inside [new Error];
    if reading the body fails, that failure is logged; an ok response
    gives the success alert and its body is not read. *)
Theorem submit_outcome (w : World) (c : Vector3 num) (v1 v2 v3 : string) :
  result_of (selection_center w) = inr c ->
  form_value w "deviceModelId" = Some v1 ->
  form_value w "deviceId" = Some v2 ->
  form_value w "deviceName" = Some v3 ->
  trace_of (onSubmitButtonClick w) =
    Fetch (device_request w v1 v2 v3 c) ::
    match network w (device_request w v1 v2 v3 c) with
    | NetworkFailure reason => [Alert failure_message; ConsoleError reason]
    | Response true _ => [Alert success_message]
    | Response false (inr text) => [Alert failure_message; ConsoleError (Error text)]
    | Response false (inl e) => [Alert failure_message; ConsoleError e]
    end.
Proof.
  intros Hc H1 H2 H3.
  destruct (selection_center_pure w) as [r Hr].
  rewrite Hr in Hc. unfold result_of in Hc; simpl in Hc. subst r.
  unfold onSubmitButtonClick, submit_body, try_catch, bind at 1. rewrite Hr.
  unfold form_value in *.
  destruct (document w !! "deviceModelId") as [e1|] eqn:E1; [|done].
  destruct (document w !! "deviceId") as [e2|] eqn:E2; [|done].
  destruct (document w !! "deviceName") as [e3|] eqn:E3; [|done].
  simpl in H1, H2, H3. injection H1 as <-. injection H2 as <-. injection H3 as <-.
  unfold submit_device, fetch, resp_text, device_request. unfold_m. simpl.
  rewrite E1; simpl. rewrite E2; simpl. rewrite E3; simpl.
  destruct (network w _) as [reason|[] [e|text]]; reflexivity.
Qed.

(** A form field missing from the document stops the submit before the
    request: nothing is sent and the user gets the failure alert. *)
Theorem submit_missing_field (w : World) :
  form_value w "deviceModelId" = None \/ form_value w "deviceId" = None \/
  form_value w "deviceName" = None ->
  requests (trace_of (onSubmitButtonClick w)) = [] /\
  alerts (trace_of (onSubmitButtonClick w)) = [failure_message].
Proof.
  intros Hmiss.
  destruct (submit_run w); rewrite Hrun; unfold trace_of; simpl; try done;
    destruct Hmiss as [H|[H|H]]; congruence.
Qed.

(** While the viewer has no model, or the model has no instance tree, the
    submit ends in the failure alert with a TypeError on the console, and
    nothing is sent. *)
Theorem submit_viewer_not_ready (w : World) :
  model w = None \/ (exists m, model w = Some m /\ getInstanceTree m = None) ->
  exists msg,
    onSubmitButtonClick w =
      (inr tt, w, [Alert failure_message; ConsoleError (TypeError msg)]).
Proof.
  intros H.
  assert (exists msg, selection_center w = (inl (TypeError msg), w, [])) as [msg Hc].
  { unfold selection_center, call_enumNodeFragments. unfold_m. simpl.
    destruct H as [Hm|(m & Hm & Ht)]; rewrite Hm; simpl.
    - by eexists.
    - rewrite Hm; simpl. rewrite Ht. by eexists. }
  exists msg. by apply onSubmit_center_throws.
Qed.

(** A selected object for which the tree lists no fragment is submitted all
    the same, at the centre of the empty box, whether or not the model has
    a fragment list. *)
Theorem submit_object_without_fragments (w : World) m tree v1 v2 v3 :
  model w = Some m -> getInstanceTree m = Some tree ->
  enumNodeFragments tree (selection w !! 0%nat) true = ([], None) ->
  form_value w "deviceModelId" = Some v1 ->
  form_value w "deviceId" = Some v2 ->
  form_value w "deviceName" = Some v3 ->
  requests (trace_of (onSubmitButtonClick w)) =
    [device_request w v1 v2 v3 (Box3_center Box3_new)].
Proof.
  intros Hm Ht He H1 H2 H3.
  apply requests_of_submit; try done.
  unfold selection_center, call_enumNodeFragments. unfold_m. simpl.
  rewrite Hm; simpl. rewrite Hm; simpl. rewrite Ht, He. reflexivity.
Qed.

(** When the model has no fragment list and the tree lists at least one
    fragment, the callback throws on the first of them: failure alert, a
    TypeError on the console, nothing sent. *)
Theorem submit_missing_fragment_list (w : World) m tree i ids thrown :
  model w = Some m -> getInstanceTree m = Some tree ->
  getFragmentList m = None ->
  enumNodeFragments tree (selection w !! 0%nat) true = (i :: ids, thrown) ->
  exists msg,
    onSubmitButtonClick w =
      (inr tt, w, [Alert failure_message; ConsoleError (TypeError msg)]).
Proof.
  intros Hm Ht Hfl He. eexists. apply onSubmit_center_throws.
  unfold selection_center, call_enumNodeFragments. unfold_m. simpl.
  rewrite Hm; simpl. rewrite Hm; simpl. rewrite Ht, Hfl, He. reflexivity.
Qed.

(** ** The pieces together *)

Lemma last_cons {A} (a d : A) (l : list A) : List.last (a :: l) d = List.last l a.
Proof.
  revert a d. induction l as [|b l IH]; intros a d; [reflexivity|].
  change (List.last (b :: l) d = List.last (b :: l) a).
  by rewrite !IH.
Qed.

Lemma fire_selection_changed_run (sel : list Z) (w : World) ls :
  observer_invariant w ->
  clickListeners <$> document w !! "submitBtn" = Some ls ->
  exists w',
    fire_selection_changed sel w = (inr tt, w', []) /\
    observer_invariant w' /\ selection w' = sel /\
    clickListeners <$> document w' !! "submitBtn" = Some ls /\
    _panel w' = _panel w /\ options w' = options w /\ model w' = model w.
Proof.
  intros [Hl Hst] Hls.
  destruct (document w !! "submitBtn") as [btn|] eqn:Hbtn; [|done].
  simpl in Hls. injection Hls as <-.
  unfold fire_selection_changed.
  rewrite (bind_ok (modify _) _ w (with_selection sel w) tt eq_refl).
  rewrite (bind_ok (gets _) _ _ (with_selection sel w) [OnViewerSelectionChanged]);
    [|unfold gets; simpl; by rewrite Hl].
  simpl run_handlers.
  rewrite (bind_ok _ _ _ _ _ (onViewerSelectionChanged_run (with_selection sel w) btn Hbtn)).
  eexists. split; [reflexivity|].
  unfold observer_invariant, submit_state; simpl. rewrite lookup_insert_eq.
  split; [split; [exact Hl|]|].
  - destruct (Nat.eqb (length sel) 1).
    + by rewrite control_state_removed.
    + by rewrite control_state_set.
  - split; [done|]. split; [|done]. by destruct (Nat.eqb (length sel) 1).
Qed.

Lemma fire_selections_run (sels : list (list Z)) : forall (w : World) ls,
  observer_invariant w ->
  clickListeners <$> document w !! "submitBtn" = Some ls ->
  exists w',
    fire_selections sels w = (inr tt, w', []) /\
    observer_invariant w' /\ selection w' = List.last sels (selection w) /\
    clickListeners <$> document w' !! "submitBtn" = Some ls /\
    _panel w' = _panel w /\ options w' = options w /\ model w' = model w.
Proof.
  induction sels as [|sel rest IH]; intros w ls Hinv Hls.
  - exists w. by repeat (split; [done|]).
  - destruct (fire_selection_changed_run sel w ls Hinv Hls)
      as (w1 & Hrun & Hinv1 & Hsel1 & Hls1 & Hp1 & Ho1 & Hm1).
    destruct (IH w1 ls Hinv1 Hls1) as (w' & Hrun' & Hinv' & Hsel' & Hls' & Hp' & Ho' & Hm').
    exists w'. split.
    + simpl. by rewrite (bind_ok _ _ _ _ _ Hrun).
    + split; [done|]. split; [by rewrite last_cons, Hsel', Hsel1|].
      split; [done|]. split; [congruence|]. split; congruence.
Qed.

Lemma open_then_select_run (w : World) (sels : list (list Z)) :
  _panel w = None -> selectionListeners w = [] ->
  exists w',
    open_then_select sels w = (inr tt, w', []) /\
    observer_invariant w' /\
    selection w' = List.last sels (selection w) /\
    clickListeners <$> document w' !! "submitBtn" =
      Some (submit_listeners w ++ [OnSubmitButtonClick]).
Proof.
  intros Hp Hl.
  destruct (NewDevicePanel_new_run "new-device-panel" "Add Device" w)
    as (w0' & Hrun0 & _ & _ & Hb).
  destruct (NewDevicePanel_new_spec "new-device-panel" "Add Device" w)
    as (w0 & Hnew & (Hs & _) & Hl0 & Hc & _).
  rewrite Hnew in Hrun0. injection Hrun0 as <-.
  pose proof (button_onClick_first w w0 Hp Hnew) as Hfirst.
  destruct (fire_selections_run sels
              (with_panel (Some (mkPanel "new-device-panel" "Add Device" true)) w0)
              (submit_listeners w ++ [OnSubmitButtonClick]))
    as (w' & Hrun & Hinv & Hsel & Hls & _).
  { split; simpl.
    - by rewrite Hl0, Hl.
    - unfold submit_state in *. simpl. by rewrite Hb, Hs. }
  { simpl. rewrite Hc. unfold submit_listeners. simpl.
    by destruct (document w !! "submitBtn"). }
  exists w'. split.
  - unfold open_then_select. by rewrite (bind_ok _ _ _ _ _ Hfirst).
  - split; [done|]. split; [|done]. rewrite Hsel. simpl. by rewrite Hs.
Qed.

Lemma run_handlers_foreign (ls : list Handler) (w : World) :
  Forall is_foreign ls ->
  run_handlers (ls ++ [OnSubmitButtonClick]) w = onSubmitButtonClick w.
Proof.
  induction 1 as [|h ls Hh _ IH]; simpl.
  - destruct (onSubmit_returns w) as [t Ht].
    rewrite (bind_run _ _ _ _ _ _ Ht), Ht. unfold ret; simpl. by rewrite app_nil_r.
  - destruct h; try done. simpl.
    by rewrite (bind_ok (ret tt) _ w w tt eq_refl).
Qed.

(** After the panel has been opened on a viewer without selection
    listeners, and after any series of selection changes, the submit
    control is Enabled exactly when the selection the viewer now holds has
    one element. *)
Theorem submit_state_tracks_selection (w : World) (sels : list (list Z)) :
  _panel w = None -> selectionListeners w = [] ->
  exists w',
    open_then_select sels w = (inr tt, w', []) /\
    selection w' = List.last sels (selection w) /\
    (submit_state w' = Some Enabled <-> length (selection w') = 1%nat) /\
    (submit_state w' = Some Disabled <-> length (selection w') <> 1%nat).
Proof.
  intros Hp Hl.
  destruct (open_then_select_run w sels Hp Hl) as (w' & Hrun & [_ Hst] & Hsel & _).
  exists w'. split; [done|]. split; [done|]. rewrite Hst.
  destruct (Nat.eqb_spec (length (selection w')) 1); split; split; intros; congruence.
Qed.

(** With the browser dropping clicks on a disabled button, the observer is
    what guards the submit: after opening the panel and any series of
    selection changes, a click on Submit runs the submit handler when
    exactly one object is selected, and does nothing at all otherwise.  A
    page element that already carries the id [submitBtn] is the one found;
    its own click listeners are taken to be other scripts'. *)
Theorem submit_click_is_gated (w : World) (sels : list (list Z)) :
  _panel w = None -> selectionListeners w = [] ->
  Forall is_foreign (submit_listeners w) ->
  exists w',
    open_then_select sels w = (inr tt, w', []) /\
    (length (List.last sels (selection w)) = 1%nat ->
     click_element "submitBtn" w' = onSubmitButtonClick w') /\
    (length (List.last sels (selection w)) <> 1%nat ->
     click_element "submitBtn" w' = (inr tt, w', [])).
Proof.
  intros Hp Hl Hforeign.
  destruct (open_then_select_run w sels Hp Hl) as (w' & Hrun & [_ Hst] & Hsel & Hls).
  exists w'. split; [done|]. rewrite <- Hsel.
  unfold submit_state in Hst.
  destruct (document w' !! "submitBtn") as [btn|] eqn:Hbtn; [|done].
  simpl in Hls. injection Hls as Hls. injection Hst as Hst.
  assert (Hclick : click_element "submitBtn" w' =
            match control_state btn with
            | Disabled => (inr tt, w', [])
            | Enabled => run_handlers (clickListeners btn) w'
            end).
  { unfold click_element. unfold_m. rewrite Hbtn.
    destruct (control_state btn); [|reflexivity].
    by destruct (run_handlers (clickListeners btn) w') as [[r w2] t2]. }
  rewrite Hclick, Hst, Hls. split; intros Hlen.
  - apply Nat.eqb_eq in Hlen. rewrite Hlen.
    by apply run_handlers_foreign.
  - apply Nat.eqb_neq in Hlen. by rewrite Hlen.
Qed.

(** The button that [_createUI] puts into the toolbar is wired to the
    panel: on a toolbar without the group, with no panel yet and on a page
    that does not use the ids [deviceModelId] and [submitBtn], creating the
    UI and clicking the new button builds the panel and shows it. *)
Theorem created_button_opens_panel (w : World) (tb : list loc) :
  toolbar w = Some tb ->
  getControl (store w) tb "device-extension-group" = None ->
  _panel w = None ->
  document w !! "deviceModelId" = None -> document w !! "submitBtn" = None ->
  exists w',
    create_and_click w = (inr tt, w', []) /\
    _panel w' = Some (mkPanel "new-device-panel" "Add Device" true) /\
    form_value w' "deviceModelId" = Some "dm1" /\
    clickListeners <$> document w' !! "submitBtn" = Some [OnSubmitButtonClick].
Proof.
  intros Htb Hget Hp F1 F4.
  pose proof (createUI_fresh w tb Htb Hget) as Hui.
  set (w1 := mkWorld _ _ _ _ _ _ _ _ _ _ _) in Hui.
  destruct (NewDevicePanel_new_spec "new-device-panel" "Add Device" w1)
    as (w0 & Hnew & _ & _ & Hb & Hd).
  pose proof (button_onClick_first w1 w0 Hp Hnew) as Hfirst.
  eexists. split.
  - unfold create_and_click. rewrite (bind_ok _ _ _ _ _ Hui).
    unfold click_toolbar_button, this_button. unfold_m. simpl.
    rewrite store_lookup_second. simpl.
    change (button_onClick w1) with (button_onClick w1). rewrite Hfirst. reflexivity.
  - split; [done|]. unfold form_value. simpl. split.
    + rewrite Hd by done. simpl. by rewrite form_elements_fresh.
    + rewrite Hb. simpl. by rewrite F4.
Qed.

End Properties.

(** * The properties on concrete pages *)

#[local] Existing Instance Mock.three.

Lemma selection_changed_witness :
  is_Some (document (with_selection [7] Mock.page_with_form) !! "submitBtn") /\
  exists w',
    onViewerSelectionChanged (with_selection [7] Mock.page_with_form) = (inr tt, w', []) /\
    selection w' = [7] /\
    (submit_state w' = Some Enabled <-> 1%nat = 1%nat) /\
    (submit_state w' = Some Disabled <-> 1%nat <> 1%nat).
Proof.
  assert (H : is_Some (document (with_selection [7] Mock.page_with_form) !! "submitBtn")).
  { eexists. vm_compute. reflexivity. }
  split; [exact H|].
  exact (selection_changed_sets_submit_state (with_selection [7] Mock.page_with_form) H).
Defined.

Lemma submit_posts_one_device_witness :
  requests (trace_of (onSubmitButtonClick (with_selection [7] Mock.page_with_form))) =
    [mkRequest None "post" [("Content-Type", "application/json")]
       (JObject [("deviceModelId", JString "dm2");
                 ("deviceId", JString "d-17");
                 ("deviceName", JString "pump");
                 ("positon", JObject [("x", JNumber (3 : num));
                                      ("y", JNumber (2 : num));
                                      ("z", JNumber (-1 : num))])])].
Proof.
  apply (submit_posts_one_device (with_selection [7] Mock.page_with_form)
           Mock.center7 "dm2" "d-17" "pump"); vm_compute; reflexivity.
Defined.

(** C3 as stated fails: when the model has no instance tree, line 105 throws
    a TypeError, the [catch] block runs, and the handler sends nothing. *)
Lemma submit_without_tree_posts_nothing :
  ~ posts_one_device Mock.page_without_tree.
Proof.
  intros (v1 & v2 & v3 & c & H). vm_compute in H. discriminate H.
Qed.

Lemma payload_position_witness :
  exists m tree ids,
    model (with_selection [7] Mock.page_with_form) = Some m /\
    getInstanceTree m = Some tree /\
    enumNodeFragments tree (Some 7) true = (ids, None) /\
    payload_position (body Mock.request7) =
      Some (Box3_center
              (fold_left Box3_union (fragment_boxes (getFragmentList m) ids)
                         Box3_new)).
Proof.
  apply (payload_position_is_union_center (with_selection [7] Mock.page_with_form)
           7 [] Mock.request7).
  - reflexivity.
  - vm_compute. left. reflexivity.
Defined.

Lemma submit_empty_selection_witness :
  result_of (onSubmitButtonClick (with_selection [] Mock.page_with_form)) = inr tt /\
  requests (trace_of (onSubmitButtonClick (with_selection [] Mock.page_with_form))) =
    [device_request Mock.page_with_form "dm2" "d-17" "pump"
       (Box3_center (fold_left Box3_union (map (getWorldBounds Mock.frags) [])
                               Box3_new))].
Proof.
  apply (submit_reads_first_without_check Mock.page_with_form []
           (mkModel (Some Mock.tree) (Some Mock.frags)) Mock.tree Mock.frags []
           "dm2" "d-17" "pump"); reflexivity.
Defined.

Lemma multi_selection_witness :
  result_of (onSubmitButtonClick (with_selection [7; 8] Mock.page_with_form)) =
    result_of (onSubmitButtonClick (with_selection [7] Mock.page_with_form)) /\
  trace_of (onSubmitButtonClick (with_selection [7; 8] Mock.page_with_form)) =
    trace_of (onSubmitButtonClick (with_selection [7] Mock.page_with_form)) /\
  requests (trace_of (onSubmitButtonClick (with_selection [7; 8] Mock.page_with_form))) =
    [mkRequest None "post" [("Content-Type", "application/json")]
       (JObject [("deviceModelId", JString "dm2");
                 ("deviceId", JString "d-17");
                 ("deviceName", JString "pump");
                 ("positon", JObject [("x", JNumber (3 : num));
                                      ("y", JNumber (2 : num));
                                      ("z", JNumber (-1 : num))])])].
Proof.
  apply (multi_selection_uses_first_only Mock.page_with_form 7 [8]
           (mkModel (Some Mock.tree) (Some Mock.frags)) Mock.tree Mock.frags [1; 2]
           "dm2" "d-17" "pump"); try reflexivity.
  discriminate.
Defined.

(** C6 as stated fails: the extension is given a url of its own, and the
    request of the session still goes to the fixed one. *)
Lemma supplied_url_is_overwritten :
  ~ posts_to_configured_url Mock.custom_options [7] Mock.page.
Proof.
  intros H.
  specialize (H (mkRequest (Some default_url) "post"
                   [("Content-Type", "application/json")]
                   (device "dm1" "" "" Mock.center7))).
  assert (Hin : In (Fetch (mkRequest (Some default_url) "post"
                   [("Content-Type", "application/json")]
                   (device "dm1" "" "" Mock.center7)))
                (trace_of (add_device_session Mock.custom_options [7] Mock.page))).
  { vm_compute. right. left. reflexivity. }
  specialize (H Hin). vm_compute in H. discriminate H.
Qed.

Lemma submit_posts_to_fixed_url_witness :
  url (device_request (world_of (open_panel_and_select Mock.custom_options [7] Mock.page))
         "dm1" "" "" Mock.center7) =
    options (world_of (open_panel_and_select Mock.custom_options [7] Mock.page)) !! "url" /\
  url (device_request (world_of (open_panel_and_select Mock.custom_options [7] Mock.page))
         "dm1" "" "" Mock.center7) =
    Some "/api/devices?provider=synthetic&project=unused" /\
  (forall k, k <> "url" ->
     options (world_of (open_panel_and_select Mock.custom_options [7] Mock.page)) !! k =
     default ∅ Mock.custom_options !! k).
Proof.
  apply (submit_posts_to_fixed_url Mock.custom_options Mock.page).
  - vm_compute. reflexivity.
  - vm_compute. left. reflexivity.
Defined.

Lemma createUI_idempotent_witness :
  exists w' g b,
    _createUI Mock.page = (inr tt, w', []) /\
    times 3 _createUI Mock.page = (inr tt, w', []) /\
    _createUI w' = (inr tt, w', []) /\
    toolbar_controls_named w' "device-extension-group" = [g] /\
    store w' !! g = Some (ControlGroup "device-extension-group" [b]) /\
    store w' !! b =
      Some (Button "add-device-button" (Some "Add Device") (Some TogglePanel)) /\
    _group w' = Some g /\ _button w' = Some b.
Proof.
  apply (createUI_idempotent Mock.page [0%nat] 2).
  - reflexivity.
  - constructor; [simpl; lia|constructor].
  - reflexivity.
Defined.

(** C8 as stated fails: with one object selected when the panel is built,
    the submit control comes up Enabled. *)
Lemma panel_built_with_one_selected_is_enabled :
  ~ panel_starts_disabled (with_selection [7] Mock.page).
Proof.
  unfold panel_starts_disabled. vm_compute. discriminate.
Qed.

(** ** Further properties on concrete pages *)

Lemma createUI_without_toolbar_witness :
  exists msg,
    _createUI Mock.page_without_toolbar =
      (inl (TypeError msg), Mock.page_without_toolbar, []) /\
    onToolbarCreated Mock.page_without_toolbar =
      (inl (TypeError msg), Mock.page_without_toolbar, []).
Proof. apply (createUI_without_toolbar Mock.page_without_toolbar). reflexivity. Defined.

Lemma createUI_skips_existing_group_witness :
  exists w',
    _createUI Mock.page_with_button = (inr tt, w', []) /\
    toolbar w' = Some [0%nat; 2%nat] /\ store w' = store Mock.page_with_button /\
    _group w' = Some 2%nat /\ _button w' = _button Mock.page_with_button /\
    _panel w' = _panel Mock.page_with_button /\
    document w' = document Mock.page_with_button /\
    In 2%nat [0%nat; 2%nat] /\
    has_id (store Mock.page_with_button) "device-extension-group" 2%nat = true.
Proof.
  apply (createUI_skips_existing_group Mock.page_with_button [0%nat; 2%nat] 2%nat);
    vm_compute; reflexivity.
Defined.

Lemma createUI_keeps_existing_controls_witness :
  exists w',
    _createUI Mock.page = (inr tt, w', []) /\
    toolbar w' = Some ([0%nat] ++ [length (store Mock.page)]) /\
    (forall l c, store Mock.page !! l = Some c -> store w' !! l = Some c) /\
    length (store w') = S (S (length (store Mock.page))) /\
    selection w' = selection Mock.page /\ document w' = document Mock.page /\
    options w' = options Mock.page /\ _panel w' = _panel Mock.page /\
    selectionListeners w' = selectionListeners Mock.page.
Proof.
  apply (createUI_keeps_existing_controls Mock.page [0%nat]); reflexivity.
Defined.

Lemma selection_changed_frame_witness :
  exists w' btn',
    onViewerSelectionChanged Mock.page_with_form = (inr tt, w', []) /\
    document w' !! "submitBtn" = Some btn' /\
    value btn' = "" /\ clickListeners btn' = [] /\
    (forall a, a <> "disabled" -> attributes btn' !! a = (∅ : gmap string string) !! a) /\
    (forall id, id <> "submitBtn" ->
                document w' !! id = document Mock.page_with_form !! id) /\
    selection w' = selection Mock.page_with_form /\
    selectionListeners w' = selectionListeners Mock.page_with_form /\
    options w' = options Mock.page_with_form /\
    _panel w' = _panel Mock.page_with_form /\
    toolbar w' = toolbar Mock.page_with_form /\
    store w' = store Mock.page_with_form.
Proof.
  apply (selection_changed_frame Mock.page_with_form (mkElement ∅ "" [])).
  vm_compute. reflexivity.
Defined.

Lemma selection_changed_idempotent_witness :
  exists w',
    onViewerSelectionChanged Mock.page_with_form = (inr tt, w', []) /\
    onViewerSelectionChanged w' = (inr tt, w', []).
Proof.
  apply (selection_changed_idempotent Mock.page_with_form).
  eexists. vm_compute. reflexivity.
Defined.

Lemma first_click_builds_panel_witness :
  exists w',
    button_onClick Mock.page = (inr tt, w', []) /\
    _panel w' = Some (mkPanel "new-device-panel" "Add Device" true) /\
    selectionListeners w' = selectionListeners Mock.page ++ [OnViewerSelectionChanged] /\
    form_value w' "deviceModelId" = Some "dm1" /\
    form_value w' "deviceId" = Some "" /\
    form_value w' "deviceName" = Some "" /\
    clickListeners <$> document w' !! "submitBtn" = Some [OnSubmitButtonClick] /\
    submit_state w' =
      Some (if Nat.eqb (length (selection Mock.page)) 1 then Enabled else Disabled) /\
    selection w' = selection Mock.page /\ toolbar w' = toolbar Mock.page /\
    store w' = store Mock.page.
Proof. apply (first_click_builds_panel Mock.page); reflexivity. Defined.

Lemma two_clicks_restore_witness :
  times 2 button_onClick Mock.page_opened = (inr tt, Mock.page_opened, []).
Proof.
  apply (two_clicks_restore Mock.page_opened
           (mkPanel "new-device-panel" "Add Device" true)).
  vm_compute. reflexivity.
Defined.


Lemma submit_outcome_witness :
  trace_of (onSubmitButtonClick
              (with_network Mock.server_rejects (with_selection [7] Mock.page_with_form))) =
    [Fetch Mock.request7; Alert failure_message; ConsoleError (Error "device exists")].
Proof.
  apply (submit_outcome
           (with_network Mock.server_rejects (with_selection [7] Mock.page_with_form))
           Mock.center7 "dm2" "d-17" "pump"); vm_compute; reflexivity.
Defined.

Lemma submit_missing_field_witness :
  requests (trace_of (onSubmitButtonClick (with_selection [7] Mock.page))) = [] /\
  alerts (trace_of (onSubmitButtonClick (with_selection [7] Mock.page))) =
    [failure_message].
Proof.
  apply (submit_missing_field (with_selection [7] Mock.page)).
  left. vm_compute. reflexivity.
Defined.

Lemma submit_viewer_not_ready_witness :
  exists msg,
    onSubmitButtonClick Mock.page_without_tree =
      (inr tt, Mock.page_without_tree,
       [Alert failure_message; ConsoleError (TypeError msg)]).
Proof.
  apply (submit_viewer_not_ready Mock.page_without_tree).
  right. eexists. split; reflexivity.
Defined.

Lemma submit_object_without_fragments_witness :
  requests (trace_of (onSubmitButtonClick (with_selection [9] Mock.page_without_frags))) =
    [device_request (with_selection [9] Mock.page_without_frags) "dm2" "d-17" "pump"
       (Box3_center Box3_new)].
Proof.
  apply (submit_object_without_fragments (with_selection [9] Mock.page_without_frags)
           (mkModel (Some Mock.tree) None) Mock.tree "dm2" "d-17" "pump");
    reflexivity.
Defined.

Lemma submit_missing_fragment_list_witness :
  exists msg,
    onSubmitButtonClick Mock.page_without_frags =
      (inr tt, Mock.page_without_frags,
       [Alert failure_message; ConsoleError (TypeError msg)]).
Proof.
  apply (submit_missing_fragment_list Mock.page_without_frags
           (mkModel (Some Mock.tree) None) Mock.tree 1 [2] None); reflexivity.
Defined.

Lemma submit_state_tracks_selection_witness :
  exists w',
    open_then_select [[7]; [7; 8]; [7]] Mock.page = (inr tt, w', []) /\
    selection w' = List.last [[7]; [7; 8]; [7]] (selection Mock.page) /\
    (submit_state w' = Some Enabled <-> length (selection w') = 1%nat) /\
    (submit_state w' = Some Disabled <-> length (selection w') <> 1%nat).
Proof.
  apply (submit_state_tracks_selection Mock.page [[7]; [7; 8]; [7]]); reflexivity.
Defined.

Lemma submit_click_is_gated_witness :
  exists w',
    open_then_select [[7]; [7; 8]] Mock.page = (inr tt, w', []) /\
    (length (List.last [[7]; [7; 8]] (selection Mock.page)) = 1%nat ->
     click_element "submitBtn" w' = onSubmitButtonClick w') /\
    (length (List.last [[7]; [7; 8]] (selection Mock.page)) <> 1%nat ->
     click_element "submitBtn" w' = (inr tt, w', [])).
Proof.
  apply (submit_click_is_gated Mock.page [[7]; [7; 8]]); try reflexivity.
  vm_compute. constructor.
Defined.

Lemma created_button_opens_panel_witness :
  exists w',
    create_and_click Mock.page = (inr tt, w', []) /\
    _panel w' = Some (mkPanel "new-device-panel" "Add Device" true) /\
    form_value w' "deviceModelId" = Some "dm1" /\
    clickListeners <$> document w' !! "submitBtn" = Some [OnSubmitButtonClick].
Proof.
  apply (created_button_opens_panel Mock.page [0%nat]); reflexivity.
Defined.

Lemma submit_two_outcomes_witness :
  alerts (trace_of (onSubmitButtonClick (with_selection [7] Mock.page_with_form))) =
    [success_message] /\
  alerts (trace_of (onSubmitButtonClick Mock.page_without_tree)) = [failure_message].
Proof.
  split.
  - destruct (submit_two_outcomes (with_selection [7] Mock.page_with_form))
      as (_ & _ & _ & _ & _ & _ & _ & H).
    destruct (H Mock.center7 "dm2" "d-17" "pump" eq_refl eq_refl eq_refl eq_refl)
      as (_ & Hok & _).
    exact (Hok (inr "") eq_refl).
  - destruct (submit_two_outcomes Mock.page_without_tree)
      as (_ & _ & _ & _ & _ & H & _).
    rewrite (H (TypeError "tree is null") eq_refl). reflexivity.
Defined.
